(** * Ambient declarations of the Foundry VTT typings, and what they promise

    The repository consists of TypeScript declaration files ([.d.ts]) and of
    [tsd] type tests.  The declarations are embedded as data: types are terms
    of [ty], the literal arguments of the tests and the [@defaultValue] tags
    are terms of [expr], and a class declaration is a list of members.  A
    small model of the fragment of TypeScript's assignability check that the
    tests exercise gives the declarations their meaning. *)

From stdpp Require Import base strings list.
From Stdlib Require Import ZArith QArith.

Set Warnings "-register-all".

Local Open Scope Z_scope.
Local Open Scope string_scope.

(** ** The fragment of TypeScript's types that the declarations use *)
Module TS.

Inductive ty : Type :=
  | TAny
  | TUnknown
  | TNever
  | TVoid
  | TUndefined
  | TNull
  | TBoolean
  | TNumber
  | TString
  | TNumLit (n : Z)
  | TStrLit (s : string)
  | TTuple (ts : list ty)
  | TArray (t : ty)
  | TUnion (ts : list ty)
  | TObject (fs : list (string * (bool * ty)))
  | TRecord (t : ty)
  | TRef (name : string) (args : list ty)
  | TTypeof (path : string)
  | TThis
  | TIndexed (t k : ty)
  | TFun (params : list (string * (bool * ty))) (ret : ty).

(** A property of an object type or of an interface: its name, whether it is
    optional ([name?: t]), and its type. *)
Definition field : Type := string * (bool * ty).

Definition required (k : string) (t : ty) : field := (k, (false, t)).
Definition optional (k : string) (t : ty) : field := (k, (true, t)).

(** Expressions: the literals written in the type tests and in the
    [@defaultValue] tags. [EConst e m] is [foundry.CONST.e.m]; [EHost c] is an
    object the host engine hands out, of class [c]. *)
Inductive expr : Type :=
  | EUndefined
  | ENull
  | EBool (b : bool)
  | ENum (n : Z)
  | EStr (s : string)
  | EMul (a b : expr)
  | EConst (enum member : string)
  | EArray (es : list expr)
  | EObject (ps : list (string * expr))
  | EHost (class : string).

Fixpoint assoc {A} (k : string) (l : list (string * A)) : option A :=
  match l with
  | [] => None
  | (k', a) :: l' => if String.eqb k k' then Some a else assoc k l'
  end.

Definition has_key {A} (k : string) (l : list (string * A)) : bool :=
  match assoc k l with Some _ => true | None => false end.

Definition keys {A} (l : list (string * A)) : list string := map fst l.

Definition is_undefined (e : expr) : bool :=
  match e with EUndefined => true | _ => false end.

Definition is_null (e : expr) : bool :=
  match e with ENull => true | _ => false end.

End TS.

(** ** Class declarations

    A [declare class] is its name, the class it extends, the parameters of its
    constructor and its members.  A member has no body: it is a signature,
    with the value of its [@defaultValue] tag when it carries one. *)
Module Decl.
Import TS.

Inductive access : Type := Public | Protected.

Inductive signature : Type :=
  | Property (t : ty)
  | Method (params : list field) (ret : ty)
  | Getter (t : ty)
  | Setter (param : field).

Record member : Type := {
  name : string;
  static : bool;
  visibility : access;
  sig : signature;
  defaultValue : option expr
}.

Record class_decl : Type := {
  class_name : string;
  extends : option ty;
  ctor : list field;
  members : list member
}.

Definition prop (k : string) (t : ty) : member :=
  {| name := k; static := false; visibility := Public; sig := Property t;
     defaultValue := None |}.

Definition method (k : string) (params : list field) (ret : ty) : member :=
  {| name := k; static := false; visibility := Public;
     sig := Method params ret; defaultValue := None |}.

Definition getter (k : string) (t : ty) : member :=
  {| name := k; static := false; visibility := Public; sig := Getter t;
     defaultValue := None |}.

Definition setter (k : string) (p : field) : member :=
  {| name := k; static := false; visibility := Public; sig := Setter p;
     defaultValue := None |}.

Definition with_default (d : expr) (m : member) : member :=
  {| name := name m; static := static m; visibility := visibility m;
     sig := sig m; defaultValue := Some d |}.

Definition protected (m : member) : member :=
  {| name := name m; static := static m; visibility := Protected;
     sig := sig m; defaultValue := defaultValue m |}.

Definition statically (m : member) : member :=
  {| name := name m; static := true; visibility := visibility m;
     sig := sig m; defaultValue := defaultValue m |}.

Fixpoint find_member (k : string) (ms : list member) : option member :=
  match ms with
  | [] => None
  | m :: ms' => if String.eqb k (name m) then Some m else find_member k ms'
  end.

(** The declared type of the property [k] of a class. *)
Definition property_type (c : class_decl) (k : string) : option ty :=
  match find_member k (members c) with
  | Some m => match sig m with Property t => Some t | _ => None end
  | None => None
  end.

(** The declared signature of the method [k] of a class. *)
Definition method_signature (c : class_decl) (k : string)
  : option (list field * ty) :=
  match find_member k (members c) with
  | Some m => match sig m with Method ps r => Some (ps, r) | _ => None end
  | None => None
  end.

Definition ref (c : string) : ty := TRef c [].
Definition Set_ (t : ty) : ty := TRef "Set" [t].
Definition Promise (t : ty) : ty := TRef "Promise" [t].
Definition tuple_of_literals (l : list string) : ty := TTuple (map TStrLit l).

(** *** [keyboardManager.d.ts] *)

(** [static MOVEMENT_KEYS]: the directions each movement key stands for. *)
Definition MOVEMENT_KEYS : list (string * list string) :=
  [ ("w", ["up"]);
    ("a", ["left"]);
    ("s", ["down"]);
    ("d", ["right"]);
    ("W", ["up"]);
    ("A", ["left"]);
    ("S", ["down"]);
    ("D", ["right"]);
    ("ArrowUp", ["up"]);
    ("ArrowRight", ["right"]);
    ("ArrowDown", ["down"]);
    ("ArrowLeft", ["left"]);
    ("Numpad1", ["down"; "left"]);
    ("Numpad2", ["down"]);
    ("Numpad3", ["down"; "right"]);
    ("Numpad4", ["left"]);
    ("Numpad6", ["right"]);
    ("Numpad7", ["up"; "left"]);
    ("Numpad8", ["up"]);
    ("Numpad9", ["up"; "right"]) ].

Definition directions : list string := ["up"; "down"; "left"; "right"].

(** [static ZOOM_KEYS] *)
Definition ZOOM_KEYS : list (string * string) :=
  [ ("PageUp", "in");
    ("PageDown", "out");
    ("NumpadAdd", "in");
    ("NumpadSubtract", "out") ].

(** [static DIGIT_KEYS] *)
Definition DIGIT_KEYS : list string :=
  ["1"; "2"; "3"; "4"; "5"; "6"; "7"; "8"; "9"; "0"].

(** The key handlers share their parameters:
    [(event: KeyboardEvent, up: boolean, modifiers: KeyboardManager.MetaModifiers)]. *)
Definition key_handler (k : string) (ret : ty) : member :=
  protected (method k
    [ required "event" (ref "KeyboardEvent");
      required "up" TBoolean;
      required "modifiers" (ref "KeyboardManager.MetaModifiers") ] ret).

Definition animatePan : ty :=
  TRef "ReturnType" [TIndexed (ref "Canvas") (TStrLit "animatePan")].

Definition KeyboardManager : class_decl :=
  {| class_name := "KeyboardManager";
     extends := None;
     ctor := [];
     members :=
       [ protected (prop "_downKeys" (Set_ TString));
         protected (prop "_handled" (Set_ TString));
         protected (prop "_moveKeys" (Set_ TString));
         with_default ENull (protected (prop "_moveTime" (TUnion [TNumber; TNull])));
         with_default (ENum 0) (protected (prop "_tabState" (TUnion [TNumLit 0; TNumLit 1])));
         with_default (ENum 0) (protected (prop "_wheelTime" TNumber));
         statically (prop "MOUSE_WHEEL_RATE_LIMIT" (TNumLit 50));
         statically (prop "DIGIT_KEYS" (tuple_of_literals DIGIT_KEYS));
         statically (prop "MOVEMENT_KEYS"
           (TObject (map (fun kv => required (fst kv) (tuple_of_literals (snd kv)))
                         MOVEMENT_KEYS)));
         statically (prop "ZOOM_KEYS"
           (TObject (map (fun kv => required (fst kv) (TStrLit (snd kv))) ZOOM_KEYS)));
         protected (method "_reset" [] TVoid);
         method "isDown" [required "code" TString] TBoolean;
         method "isCtrl"
           [required "event" (TUnion [ref "Event"; ref "PIXI.InteractionEvent"])]
           TBoolean;
         method "getKey" [required "event" (ref "KeyboardEvent")] TString;
         getter "moveKeys" (TTypeof "KeyboardManager.MOVEMENT_KEYS");
         getter "digitKeys" (TTypeof "KeyboardManager.DIGIT_KEYS");
         getter "zoomKeys" (TTypeof "KeyboardManager.ZOOM_KEYS");
         getter "hasFocus" TBoolean;
         protected (method "_onKeyDown" [required "event" (ref "KeyboardEvent")] TVoid);
         protected (method "_onKeyUp" [required "event" (ref "KeyboardEvent")] TVoid);
         protected (method "_handleKeys"
           [ required "event" (ref "KeyboardEvent");
             required "key" TString;
             required "up" TBoolean ] TVoid);
         protected (method "_onCompositionEnd"
           [required "event" (ref "CompositionEvent")] TVoid);
         protected (method "_onWheel" [required "event" (ref "WheelEvent")] TVoid);
         key_handler "_onTab" TVoid;
         key_handler "_onEscape" (TUnion [TVoid; Promise TVoid]);
         key_handler "_onSpace"
           (TUnion [TVoid;
                    TRef "ReturnType" [TIndexed (Set_ TString) (TStrLit "add")]]);
         key_handler "_onAlt" TVoid;
         key_handler "_onMovement" TVoid;
         protected (method "_handleMovement"
           [ required "event" (ref "KeyboardEvent");
             required "layer" (TRef "PlaceablesLayer" [TAny]) ] TVoid);
         protected (method "_handleCanvasPan" [] animatePan);
         key_handler "_onDigit" TVoid;
         key_handler "_onKeyA" TVoid;
         key_handler "_onKeyC" TVoid;
         key_handler "_onKeyV" TVoid;
         key_handler "_onKeyZ" TVoid;
         key_handler "_onKeyZoom" (TUnion [TVoid; animatePan]);
         key_handler "_onDelete"
           (TUnion [TVoid;
                    Promise (TUnion
                      [ TArray (TRef "foundry.abstract.Document" [TAny; TAny]);
                        TUndefined ])]) ] |}.

(** *** [audioContainer.d.ts] *)

Definition callback : ty := TFun [] TVoid.

Definition AudioContainer : class_decl :=
  {| class_name := "AudioContainer";
     extends := None;
     ctor := [required "src" TString];
     members :=
       [ prop "src" TString;
         with_default EUndefined (prop "sourceNode"
           (TUnion [ref "AudioBufferSourceNode"; ref "MediaElementAudioSourceNode";
                    TUndefined]));
         with_default EUndefined (prop "gainNode" (TUnion [ref "GainNode"; TUndefined]));
         with_default (EBool false) (prop "isBuffer" TBoolean);
         with_default (EBool false) (prop "loaded" TBoolean);
         with_default (EBool false) (prop "failed" TBoolean);
         with_default (EBool false) (prop "playing" TBoolean);
         with_default (EBool false) (protected (prop "_loop" TBoolean));
         getter "loop" TBoolean;
         setter "loop" (required "looping" TBoolean);
         with_default (EMul (ENum 10) (ENum 60))
           (statically (prop "MAX_BUFFER_DURATION" TNumber));
         getter "buffer" (TUnion [ref "AudioBuffer"; TNull; TUndefined]);
         getter "context" (ref "AudioContext");
         getter "duration" (TUnion [TNumber; TUndefined]);
         getter "element" (TUnion [ref "HTMLMediaElement"; TUndefined]);
         method "load" [] (Promise TVoid);
         protected (method "_createNode" []
           (Promise (TUnion [ref "AudioBufferSourceNode";
                             ref "MediaElementAudioSourceNode"; TUndefined])));
         protected (method "_createAudioBuffer" [] (Promise (ref "AudioBuffer")));
         protected (method "_createAudioBufferSourceNode"
           [required "buffer" (ref "AudioBuffer")] (ref "AudioBufferSourceNode"));
         protected (method "_createAudioElement" [] (Promise (ref "HTMLAudioElement")));
         protected (method "_createMediaElementAudioSourceNode"
           [required "element" (ref "HTMLAudioElement")]
           (ref "MediaElementAudioSourceNode"));
         method "play" [required "offset" TNumber; required "onended" callback] TVoid;
         protected (method "_configureNode" [] TVoid);
         method "stop" [] TVoid;
         protected (method "_onEnd" [required "onended" callback] TVoid);
         protected (method "_unloadMediaNode" [] TVoid) ] |}.

(** *** [users.d.ts] *)

Definition BaseUser : ty := TTypeof "foundry.documents.BaseUser".

(** [StoredDocument<InstanceType<ConfiguredDocumentClass<typeof foundry.documents.BaseUser>>>] *)
Definition StoredUser : ty :=
  TRef "StoredDocument"
    [TRef "InstanceType" [TRef "ConfiguredDocumentClass" [BaseUser]]].

Definition Users : class_decl :=
  {| class_name := "Users";
     extends := Some (TRef "WorldCollection" [BaseUser; TStrLit "Users"]);
     ctor :=
       [optional "data"
          (TArray (TIndexed (ref "foundry.data.UserData") (TStrLit "_source")))];
     members :=
       [ with_default ENull (prop "current" (TUnion [StoredUser; TNull]));
         protected (method "_initialize" [] TVoid);
         statically (prop "documentName" (TStrLit "User"));
         getter "players" (TRef "ReturnType" [TIndexed TThis (TStrLit "filter")]);
         statically (method "_activateSocketListeners"
           [required "socket" (ref "io.Socket")] TVoid);
         protected (statically (method "_handleUserActivity"
           [ required "userId" TString;
             optional "activityData" (ref "User.ActivityData") ] TVoid)) ] |}.

End Decl.

(** ** What the host engine provides

    The typings refer to the engine's constant tables ([foundry.CONST]) and to
    classes of objects that only the engine creates.  The declarations
    embedded here fix neither, so both are parameters of everything below. *)
Record Host : Type := {
  WALL_DIRECTIONS : list (string * Z);
  WALL_DOOR_STATES : list (string * Z);
  WALL_DOOR_TYPES : list (string * Z);
  WALL_MOVEMENT_TYPES : list (string * Z);
  WALL_SENSE_TYPES : list (string * Z);
  (** [instance_of c args cls]: an engine object of class [cls] inhabits the
      named type [c<args>]. *)
  instance_of : string -> list TS.ty -> string -> bool
}.

Module Check.
Import TS Decl.

Section WithHost.
Context (host : Host).

Definition enumeration (name : string) : option (list (string * Z)) :=
  if String.eqb name "WALL_DIRECTIONS" then Some (WALL_DIRECTIONS host)
  else if String.eqb name "WALL_DOOR_STATES" then Some (WALL_DOOR_STATES host)
  else if String.eqb name "WALL_DOOR_TYPES" then Some (WALL_DOOR_TYPES host)
  else if String.eqb name "WALL_MOVEMENT_TYPES" then Some (WALL_MOVEMENT_TYPES host)
  else if String.eqb name "WALL_SENSE_TYPES" then Some (WALL_SENSE_TYPES host)
  else None.

(** The literal type of a numeric expression, when it has one: a numeric
    literal, or a member of one of the constant tables. *)
Definition literal_number (e : expr) : option Z :=
  match e with
  | ENum n => Some n
  | EConst en m => match enumeration en with Some tbl => assoc m tbl | None => None end
  | _ => None
  end.

(** Expressions of type [number]. *)
Fixpoint is_number (e : expr) : bool :=
  match e with
  | ENum _ => true
  | EConst _ _ => match literal_number e with Some _ => true | None => false end
  | EMul a b => is_number a && is_number b
  | _ => false
  end.

(** [assignable t e]: the expression [e], written where a [t] is expected,
    type-checks.  Object literals are checked property by property, missing
    properties must be optional, and a property the type does not know is an
    error (the excess property check on fresh object literals); an optional
    property also accepts [undefined].  No literal of the fragment has a
    [typeof], [this], indexed-access or function type. *)
Fixpoint assignable (t : ty) (e : expr) {struct t} : bool :=
  match t with
  | TAny | TUnknown => true
  | TNever => false
  | TVoid => is_undefined e
  | TUndefined => is_undefined e
  | TNull => is_null e
  | TBoolean => match e with EBool _ => true | _ => false end
  | TNumber => is_number e
  | TString => match e with EStr _ => true | _ => false end
  | TNumLit n =>
      match literal_number e with Some m => Z.eqb m n | None => false end
  | TStrLit s => match e with EStr s' => String.eqb s' s | _ => false end
  | TTuple ts =>
      match e with
      | EArray es =>
          (fix elements (ts : list ty) (es : list expr) : bool :=
             match ts, es with
             | [], [] => true
             | t' :: ts', e' :: es' => assignable t' e' && elements ts' es'
             | _, _ => false
             end) ts es
      | _ => false
      end
  | TArray t' =>
      match e with
      | EArray es => forallb (assignable t') es
      | _ => false
      end
  | TUnion ts =>
      (fix alternatives (ts : list ty) : bool :=
         match ts with
         | [] => false
         | t' :: ts' => assignable t' e || alternatives ts'
         end) ts
  | TObject fs =>
      match e with
      | EObject ps =>
          (fix properties (fs : list (string * (bool * ty))) : bool :=
             match fs with
             | [] => true
             | (k, (opt, t')) :: fs' =>
                 match assoc k ps with
                 | Some e' => assignable t' e' || (opt && is_undefined e')
                 | None => opt
                 end && properties fs'
             end) fs
          && forallb (fun p => has_key (fst p) fs) ps
      | _ => false
      end
  | TRecord t' =>
      match e with
      | EObject ps => forallb (fun p => assignable t' (snd p)) ps
      | _ => false
      end
  | TRef c args =>
      match e with EHost cls => instance_of host c args cls | _ => false end
  | TTypeof _ | TThis | TIndexed _ _ | TFun _ _ => false
  end.

(** The check of one declared property [f] against the properties [ps] of an
    object literal. *)
Definition property_ok (ps : list (string * expr)) (f : field) : bool :=
  match assoc (fst f) ps with
  | Some e => assignable (snd (snd f)) e || (fst (snd f) && is_undefined e)
  | None => fst (snd f)
  end.

(** Arguments of a call against the declared parameters: every argument is
    assignable to its parameter, a missing argument needs an optional
    parameter, and there is no parameter left for a surplus argument. *)
Fixpoint arguments_ok (params : list field) (args : list expr) : bool :=
  match params, args with
  | [], [] => true
  | [], _ :: _ => false
  | (_, (opt, _)) :: params', [] => opt && arguments_ok params' []
  | (_, (opt, t)) :: params', a :: args' =>
      (assignable t a || (opt && is_undefined a)) && arguments_ok params' args'
  end.

(** The type of [new C(args)]: the instance type of the class when the
    arguments fit its constructor, and a type error otherwise. *)
Definition type_of_new (c : class_decl) (args : list expr) : option ty :=
  if arguments_ok (ctor c) args then Some (TRef (class_name c) []) else None.

(** The assertions of [tsd]: [expectError(new C(args))] holds when the
    expression does not type-check, [expectType<T>(new C(args))] when it has
    exactly the type [T]. *)
Inductive assertion : Type :=
  | expectError (c : class_decl) (args : list expr)
  | expectType (t : ty) (c : class_decl) (args : list expr).

Definition holds (a : assertion) : Prop :=
  match a with
  | expectError c args => type_of_new c args = None
  | expectType t c args => type_of_new c args = Some t
  end.

(** *** Values of the documented defaults *)

Inductive value : Type :=
  | VUndefined
  | VNull
  | VBool (b : bool)
  | VNum (n : Z)
  | VStr (s : string)
  | VArray (vs : list value)
  | VObject (ps : list (string * value))
  | VHost (class : string).

Fixpoint eval (e : expr) : option value :=
  match e with
  | EUndefined => Some VUndefined
  | ENull => Some VNull
  | EBool b => Some (VBool b)
  | ENum n => Some (VNum n)
  | EStr s => Some (VStr s)
  | EMul a b =>
      match eval a, eval b with
      | Some (VNum x), Some (VNum y) => Some (VNum (x * y))
      | _, _ => None
      end
  | EConst _ _ => option_map VNum (literal_number e)
  | EArray es =>
      option_map VArray
        ((fix elements (es : list expr) : option (list value) :=
            match es with
            | [] => Some []
            | e' :: es' =>
                match eval e', elements es' with
                | Some v, Some vs => Some (v :: vs)
                | _, _ => None
                end
            end) es)
  | EObject ps =>
      option_map VObject
        ((fix properties (ps : list (string * expr)) : option (list (string * value)) :=
            match ps with
            | [] => Some []
            | (k, e') :: ps' =>
                match eval e', properties ps' with
                | Some v, Some vs => Some ((k, v) :: vs)
                | _, _ => None
                end
            end) ps)
  | EHost c => Some (VHost c)
  end.

(** The documented default of a member. *)
Definition default_of (c : class_decl) (k : string) : option value :=
  match find_member k (members c) with
  | Some m => match defaultValue m with Some d => eval d | None => None end
  | None => None
  end.

End WithHost.
End Check.

(** ** [foundry.data.WallData] and its type tests *)
Module Wall.
Import TS Decl Check.

Section WithHost.
Context (host : Host).

(** The type of the members of a constant table: the union of the literal
    types of its values. *)
Definition enum_type (tbl : list (string * Z)) : ty :=
  TUnion (map (fun kv => TNumLit (snd kv)) tbl).

(** Modelled from the spec: the declaration of [foundry.data.WallData]
    (its data file is not among the sources; only its type tests are).  The
    field set is the one the specification lists, [c] being a tuple of four
    numbers; the type tests fix the rest: every field but [c] may be left
    out or be [null], there is an [_id], [sound] takes a sense type, and
    [flags] takes an object. *)
Definition WallData_fields : list field :=
  [ optional "_id" (TUnion [TString; TNull]);
    required "c" (TTuple [TNumber; TNumber; TNumber; TNumber]);
    optional "move" (TUnion [enum_type (WALL_MOVEMENT_TYPES host); TNull]);
    optional "sense" (TUnion [enum_type (WALL_SENSE_TYPES host); TNull]);
    optional "sound" (TUnion [enum_type (WALL_SENSE_TYPES host); TNull]);
    optional "dir" (TUnion [enum_type (WALL_DIRECTIONS host); TNull]);
    optional "door" (TUnion [enum_type (WALL_DOOR_TYPES host); TNull]);
    optional "ds" (TUnion [enum_type (WALL_DOOR_STATES host); TNull]);
    optional "flags" (TUnion [TRecord TUnknown; TNull]) ].

(** Modelled from the spec: the class [foundry.data.WallData], constructed
    from one object of the shape above (the constructor's declaration is
    missing with the rest of the data file). *)
Definition WallData : class_decl :=
  {| class_name := "foundry.data.WallData";
     extends := None;
     ctor := [required "data" (TObject WallData_fields)];
     members := map (fun f => prop (fst f) (snd (snd f))) WallData_fields |}.

(** The type [foundry.data.WallData] that [expectType] asks for. *)
Definition WallData_type : ty := TRef "foundry.data.WallData" [].

Definition c_10_20_30_40 : string * expr :=
  ("c", EArray [ENum 10; ENum 20; ENum 30; ENum 40]).

(** The thirteen assertions of the type test of [WallData], in order. *)
Definition wallData_tests : list assertion :=
  [ expectError WallData [];
    expectError WallData [EObject []];
    expectError WallData [EObject [("c", EArray [ENum 10; ENum 20])]];
    expectType WallData_type WallData [EObject [c_10_20_30_40]];
    expectType WallData_type WallData
      [EObject [ ("_id", ENull); c_10_20_30_40; ("move", ENull); ("sense", ENull);
                 ("sound", ENull); ("dir", ENull); ("door", ENull); ("ds", ENull);
                 ("flags", ENull) ]];
    expectType WallData_type WallData
      [EObject [ ("_id", EUndefined); c_10_20_30_40; ("move", EUndefined);
                 ("sense", EUndefined); ("sound", EUndefined); ("dir", EUndefined);
                 ("door", EUndefined); ("ds", EUndefined); ("flags", EUndefined) ]];
    expectType WallData_type WallData
      [EObject [ c_10_20_30_40;
                 ("move", EConst "WALL_MOVEMENT_TYPES" "NORMAL");
                 ("sense", EConst "WALL_SENSE_TYPES" "NORMAL");
                 ("sound", EConst "WALL_SENSE_TYPES" "NORMAL");
                 ("dir", EConst "WALL_DIRECTIONS" "BOTH");
                 ("door", EConst "WALL_DOOR_TYPES" "NONE");
                 ("ds", EConst "WALL_DOOR_STATES" "CLOSED");
                 ("flags", EObject []) ]];
    expectError WallData [EObject [c_10_20_30_40; ("move", ENum 9999)]];
    expectError WallData [EObject [c_10_20_30_40; ("sense", ENum 9999)]];
    expectError WallData [EObject [c_10_20_30_40; ("sound", ENum 9999)]];
    expectError WallData [EObject [c_10_20_30_40; ("dir", ENum 9999)]];
    expectError WallData [EObject [c_10_20_30_40; ("door", ENum 9999)]];
    expectError WallData [EObject [c_10_20_30_40; ("ds", ENum 9999)]] ].

(** The constant table a field of [WallData] draws its values from. *)
Definition enumeration_of (k : string) : option (list (string * Z)) :=
  if String.eqb k "move" then Some (WALL_MOVEMENT_TYPES host)
  else if String.eqb k "sense" then Some (WALL_SENSE_TYPES host)
  else if String.eqb k "sound" then Some (WALL_SENSE_TYPES host)
  else if String.eqb k "dir" then Some (WALL_DIRECTIONS host)
  else if String.eqb k "door" then Some (WALL_DOOR_TYPES host)
  else if String.eqb k "ds" then Some (WALL_DOOR_STATES host)
  else None.

Definition enumerated_fields : list string :=
  ["move"; "sense"; "sound"; "dir"; "door"; "ds"].

(** [v] is one of the values of the table. *)
Definition in_range (tbl : list (string * Z)) (v : Z) : bool :=
  existsb (Z.eqb v) (map snd tbl).

(** [v] is a value of none of the five wall tables. *)
Definition out_of_range (v : Z) : bool :=
  forallb (fun tbl => negb (in_range tbl v))
    [ WALL_DIRECTIONS host; WALL_DOOR_STATES host; WALL_DOOR_TYPES host;
      WALL_MOVEMENT_TYPES host; WALL_SENSE_TYPES host ].

(** The constants that the type test names are members of their tables. *)
Definition constants_declared : bool :=
  has_key "NORMAL" (WALL_MOVEMENT_TYPES host)
  && has_key "NORMAL" (WALL_SENSE_TYPES host)
  && has_key "BOTH" (WALL_DIRECTIONS host)
  && has_key "NONE" (WALL_DOOR_TYPES host)
  && has_key "CLOSED" (WALL_DOOR_STATES host).

End WithHost.

(** A host with small constant tables, to run the definitions on. *)
Definition sample_host : Host :=
  {| WALL_DIRECTIONS := [("BOTH", 0); ("LEFT", 1); ("RIGHT", 2)];
     WALL_DOOR_STATES := [("CLOSED", 0); ("OPEN", 1); ("LOCKED", 2)];
     WALL_DOOR_TYPES := [("NONE", 0); ("DOOR", 1); ("SECRET", 2)];
     WALL_MOVEMENT_TYPES := [("NONE", 0); ("NORMAL", 1)];
     WALL_SENSE_TYPES := [("NONE", 0); ("NORMAL", 1); ("LIMITED", 2)];
     instance_of := fun _ _ _ => false |}.

End Wall.

(** ** The configuration interfaces and [ConfiguredDocumentClassOrDefault] *)
Module Config.
Import TS.

(** An interface is the list of its properties. *)
Definition interface : Type := list field.

(** [interface DocumentClassConfig {}] and its three companions. *)
Definition DocumentClassConfig : interface := [].
Definition DataConfig : interface := [].
Definition SourceConfig : interface := [].
Definition FlagConfig : interface := [].

(** Declaration merging: the members of an interface are those of all its
    declarations, here the repository's own and a consumer's. *)
Definition merge (declared augmentation : interface) : interface :=
  (declared ++ augmentation)%list.

(** [I[k]] for a property name [k]; an optional property may be [undefined]. *)
Definition property (i : interface) (k : string) : option ty :=
  match assoc k i with
  | Some (opt, t) => Some (if opt then TUnion [t; TUndefined] else t)
  | None => None
  end.

(** [T[k]] for an object type [T]. *)
Definition indexed_access (t : ty) (k : string) : option ty :=
  match t with
  | TObject fs => property fs k
  | _ => None
  end.

(** [N extends keyof I]: [keyof I] is the union of the names of [I]'s
    properties, and only [never], such a name, or a union of such names is
    below it.  The conditional type does not distribute, since what it tests
    is not a bare type parameter. *)
Fixpoint extends_keyof (n : ty) (i : interface) : bool :=
  match n with
  | TNever => true
  | TStrLit k => has_key k i
  | TUnion ns =>
      (fix all (ns : list ty) : bool :=
         match ns with
         | [] => true
         | n' :: ns' => extends_keyof n' i && all ns'
         end) ns
  | _ => false
  end.

(** [I[N]] for a type [N] of property names. *)
Fixpoint indexed_by (i : interface) (n : ty) : option ty :=
  match n with
  | TNever => Some TNever
  | TStrLit k => property i k
  | TUnion ns =>
      option_map TUnion
        ((fix each (ns : list ty) : option (list ty) :=
            match ns with
            | [] => Some []
            | n' :: ns' =>
                match indexed_by i n', each ns' with
                | Some t, Some ts => Some (t :: ts)
                | _, _ => None
                end
            end) ns)
  | _ => None
  end.

(** The example of the interface's documentation: a consumer declares
    [interface DocumentClassConfig { Actor: typeof MyActor }]. *)
Definition MyActor_config : interface := [required "Actor" (TTypeof "MyActor")].

(** A document constructor as far as the conditional type looks at it:
    [metadata.name] is the literal type of the document's name. *)
Definition document_constructor (name : string) : ty :=
  TObject [required "metadata" (TObject [required "name" (TStrLit name)])].

(** [Fallback['metadata']['name']] *)
Definition document_name (Fallback : ty) : option ty :=
  match indexed_access Fallback "metadata" with
  | Some metadata => indexed_access metadata "name"
  | None => None
  end.

(** [type ConfiguredDocumentClassOrDefault<Fallback extends DocumentConstructor> =
      Fallback['metadata']['name'] extends keyof DocumentClassConfig
        ? DocumentClassConfig[Fallback['metadata']['name']]
        : Fallback]
    over the interface [config] that the declarations of [DocumentClassConfig]
    merge to.  There is no result when [Fallback] has no [metadata.name]. *)
Definition ConfiguredDocumentClassOrDefault (config : interface) (Fallback : ty)
  : option ty :=
  match document_name Fallback with
  | Some n => if extends_keyof n config then indexed_by config n else Some Fallback
  | None => None
  end.

End Config.

(** ** The buffer threshold of [AudioContainer] *)
Module Audio.
Import TS Decl Check.




End Audio.

(** ** [SquareGrid] *)
Module Grid.
Import TS Decl.

Definition PointArray : ty := ref "PointArray".

Definition xy (a b : string) : list field := [required a TNumber; required b TNumber].

(** [{ x: number; y: number }], what [getSnappedPosition] returns. *)
Definition snapped : ty := TObject [required "x" TNumber; required "y" TNumber].

(** The members that [declare class SquareGrid extends BaseGrid] lists; its
    constructor is the one of [BaseGrid]. *)
Definition SquareGrid : list member :=
  [ method "draw" [] TThis;
    method "_drawLine"
      [ required "points" (TTuple [TNumber; TNumber; TNumber; TNumber]);
        required "lineColor" TNumber;
        required "lineAlpha" TNumber ] (ref "PIXI.Graphics");
    method "getCenter" (xy "x" "y") PointArray;
    method "getGridPositionFromPixels" (xy "x" "y") PointArray;
    method "getPixelsFromGridPosition" (xy "row" "col") PointArray;
    method "getSnappedPosition"
      [ required "x" TNumber; required "y" TNumber;
        optional "interval" (TUnion [TNumber; TNull]) ] snapped;
    method "shiftPosition"
      [ required "x" TNumber; required "y" TNumber;
        required "dx" TNumber; required "dy" TNumber ] PointArray;
    protected (method "_getNearestVertex" (xy "x" "y") PointArray);
    method "highlightGridPosition"
      [ required "layer" (ref "GridHighlight");
        optional "options" (ref "BaseGrid.HighlightGridPositionOptions") ] TVoid;
    method "measureDistances"
      [ required "segments" (TArray (ref "GridLayer.Segment"));
        optional "options" (ref "BaseGrid.MeasureDistancesOptions") ]
      (TArray TNumber);
    method "getNeighbors" (xy "row" "col") (TArray PointArray) ].

End Grid.

(** ** Using a declared member from outside its class *)
Module Access.
Import TS Decl.

Section WithHost.
Context (host : Host).

(** The type of [object.k(args)] written outside the class, for a member
    [k] that the declaration lists itself: it must be a public instance
    method and the arguments must fit its parameters.  Members of a base
    class are not looked for. *)
Definition type_of_call (ms : list member) (k : string) (args : list expr)
  : option ty :=
  match find_member k ms with
  | Some m =>
      match static m, visibility m, sig m with
      | false, Public, Method ps r =>
          if Check.arguments_ok host ps args then Some r else None
      | _, _, _ => None
      end
  | None => None
  end.

End WithHost.

End Access.

(** ** The key tables of [KeyboardManager] *)
Module KeyTables.
Import TS Decl.

Definition is_vertical (d : string) : bool :=
  String.eqb d "up" || String.eqb d "down".

Definition is_horizontal (d : string) : bool :=
  String.eqb d "left" || String.eqb d "right".

(** One of the eight compass directions: a single direction, or a vertical
    one followed by a horizontal one. *)
Definition compass (dirs : list string) : bool :=
  match dirs with
  | [d] => is_vertical d || is_horizontal d
  | [v; h] => is_vertical v && is_horizontal h
  | _ => false
  end.

(** The keys that [MOVEMENT_KEYS] binds to the directions [dirs]. *)
Definition keys_for (dirs : list string) : list string :=
  keys (filter (fun kv => snd kv = dirs) MOVEMENT_KEYS).

(** The declared type of a getter. *)
Definition getter_type (c : class_decl) (k : string) : option ty :=
  match find_member k (members c) with
  | Some m => match sig m with Getter t => Some t | _ => None end
  | None => None
  end.

(** What [typeof C.k] stands for inside the declaration of [C]: the declared
    type of the static property [k]. *)
Definition resolve_typeof (c : class_decl) (path : string) : option ty :=
  match
    List.find
      (fun m => static m && String.eqb path (class_name c ++ "." ++ name m))
      (members c)
  with
  | Some m => match sig m with Property t => Some t | _ => None end
  | None => None
  end.

(** The type behind a getter declared as [typeof C.k]. *)
Definition getter_table (c : class_decl) (k : string) : option ty :=
  match getter_type c k with
  | Some (TTypeof path) => resolve_typeof c path
  | _ => None
  end.

End KeyTables.

(** ** Documented defaults of the [CONFIG] interface *)
Module CONFIG.
Import TS Decl.

(** [ConstructorOf<C>] *)
Definition ConstructorOf (c : string) : ty := TRef "ConstructorOf" [ref c].

(** The [documentClass] of each document configuration:
    [ConfiguredDocumentClassOrDefault<typeof F>], by configuration key. *)
Definition documentClass : list (string * string) :=
  [ ("Actor", "Actor");
    ("ChatMessage", "ChatMessage");
    ("Combat", "Combat");
    ("FogExploration", "FogExploration");
    ("Folder", "Folder");
    ("Item", "Item");
    ("JournalEntry", "JournalEntry");
    ("Macro", "Macro");
    ("Playlist", "Playlist");
    ("RollTable", "RollTable");
    ("Scene", "Scene");
    ("Setting", "Setting");
    ("User", "User");
    ("ActiveEffect", "ActiveEffect");
    ("TableResult", "foundry.documents.BaseTableResult");
    ("PlaylistSound", "foundry.documents.BasePlaylistSound");
    ("AmbientLight", "AmbientLightDocument");
    ("AmbientSound", "AmbientSoundDocument");
    ("Combatant", "Combatant");
    ("Drawing", "DrawingDocument");
    ("MeasuredTemplate", "MeasuredTemplateDocument");
    ("Note", "NoteDocument");
    ("Tile", "TileDocument");
    ("Token", "TokenDocument");
    ("Wall", "WallDocument") ].

(** [CONFIG.K.documentClass], given the types of the fallback constructors
    and the merged interface [DocumentClassConfig]. *)
Definition documentClass_type (typeof : string -> ty) (config : Config.interface)
    (K : string) : option ty :=
  match assoc K documentClass with
  | Some F => Config.ConfiguredDocumentClassOrDefault config (typeof F)
  | None => None
  end.

(** [CONFIG.Canvas.layers]: key, class of the declared [ConstructorOf], and
    documented default. *)
Definition layers : list (string * (string * string)) :=
  [ ("background", ("BackgroundLayer", "BackgroundLayer"));
    ("drawings", ("DrawingsLayer", "DrawingsLayer"));
    ("grid", ("GridLayer", "GridLayer"));
    ("walls", ("WallsLayer", "WallsLayer"));
    ("templates", ("TemplateLayer", "TemplateLayer"));
    ("notes", ("NotesLayer", "NotesLayer"));
    ("tokens", ("TokenLayer", "TokenLayer"));
    ("foreground", ("ForegroundLayer", "ForegroundLayer"));
    ("sounds", ("SoundsLayer", "SoundsLayer"));
    ("lighting", ("LightingLayer", "LightingLayer"));
    ("sight", ("SightLayer", "SightLayer"));
    ("effects", ("EffectsLayer", "EffectsLayer"));
    ("controls", ("ControlsLayer", "ControlsLayer")) ].

(** The configuration of a document with a representation on the canvas:
    for [objectClass], [layerClass] and [sheetClass] the class of the declared
    [ConstructorOf] and the documented default. *)
Record canvas_document : Type := {
  objectClass : string * string;
  layerClass : string * string;
  sheetClass : string * string
}.

Definition canvas_documents : list (string * canvas_document) :=
  [ ("AmbientLight",
      {| objectClass := ("AmbientLight", "AmbientLightDocument");
         layerClass := ("LightingLayer", "AmbientLightDocument");
         sheetClass := ("LightConfig", "AmbientLightDocument") |});
    ("AmbientSound",
      {| objectClass := ("AmbientSound", "AmbientSound");
         layerClass := ("SoundsLayer", "SoundsLayer");
         sheetClass := ("AmbientSoundConfig", "AmbientSoundConfig") |});
    ("Drawing",
      {| objectClass := ("Drawing", "Drawing");
         layerClass := ("DrawingsLayer", "DrawingsLayer");
         sheetClass := ("DrawingConfig", "DrawingConfig") |});
    ("MeasuredTemplate",
      {| objectClass := ("MeasuredTemplate", "MeasuredTemplate");
         layerClass := ("TemplateLayer", "TemplateLayer");
         sheetClass := ("MeasuredTemplateConfig", "MeasuredTemplateConfig") |});
    ("Note",
      {| objectClass := ("Note", "Note");
         layerClass := ("NotesLayer", "NotesLayer");
         sheetClass := ("NoteConfig", "NoteConfig") |});
    ("Tile",
      {| objectClass := ("Tile", "Tile");
         layerClass := ("BackgroundLayer", "BackgroundLayer");
         sheetClass := ("TileConfig", "TileConfig") |});
    ("Token",
      {| objectClass := ("Token", "Token");
         layerClass := ("TokenLayer", "TokenLayer");
         sheetClass := ("TokenConfig", "TokenConfig") |});
    ("Wall",
      {| objectClass := ("Wall", "Wall");
         layerClass := ("WallsLayer", "WallsLayer");
         sheetClass := ("WallConfig", "WallConfig") |}) ].

(** The key of [CONFIG.Canvas.layers] whose declared class is [c]. *)
Definition layer_key (c : string) : option string :=
  option_map fst (List.find (fun l => String.eqb (fst (snd l)) c) layers).

(** [fontFamilies: string[]] and [defaultFontFamily: string], with their
    documented defaults, and the [fontFamily] of the documented
    [canvasTextStyle]. *)
Definition fontFamilies_type : ty := TArray TString.

Definition fontFamilies : list string :=
  [ "Arial"; "Arial Black"; "Comic Sans MS"; "Courier New"; "Times New Roman";
    "Signika"; "Modesto Condensed" ].

Definition defaultFontFamily : string := "Signika".

Definition canvasTextStyle_fontFamily : string := "Signika".

(** [statusEffects: { id: string; label: string; icon: string }[]] and its
    documented default: id, label and icon of each effect. *)
Definition statusEffects_type : ty :=
  TArray (TObject [required "id" TString; required "label" TString;
                   required "icon" TString]).

Definition statusEffects : list (string * (string * string)) :=
  [ ("dead", ("EFFECT.StatusDead", "icons/svg/skull.svg"));
    ("unconscious", ("EFFECT.StatusUnconscious", "icons/svg/unconscious.svg"));
    ("sleep", ("EFFECT.StatusAsleep", "icons/svg/sleep.svg"));
    ("stun", ("EFFECT.StatusStunned", "icons/svg/daze.svg"));
    ("prone", ("EFFECT.StatusProne", "icons/svg/falling.svg"));
    ("restrain", ("EFFECT.StatusRestrained", "icons/svg/net.svg"));
    ("paralysis", ("EFFECT.StatusParalysis", "icons/svg/paralysis.svg"));
    ("fly", ("EFFECT.StatusFlying", "icons/svg/wing.svg"));
    ("blind", ("EFFECT.StatusBlind", "icons/svg/blind.svg"));
    ("deaf", ("EFFECT.StatusDeaf", "icons/svg/deaf.svg"));
    ("silence", ("EFFECT.StatusSilenced", "icons/svg/silenced.svg"));
    ("fear", ("EFFECT.StatusFear", "icons/svg/terror.svg"));
    ("burning", ("EFFECT.StatusBurning", "icons/svg/fire.svg"));
    ("frozen", ("EFFECT.StatusFrozen", "icons/svg/frozen.svg"));
    ("shock", ("EFFECT.StatusShocked", "icons/svg/lightning.svg"));
    ("corrode", ("EFFECT.StatusCorrode", "icons/svg/acid.svg"));
    ("bleeding", ("EFFECT.StatusBleeding", "icons/svg/blood.svg"));
    ("disease", ("EFFECT.StatusDisease", "icons/svg/biohazard.svg"));
    ("poison", ("EFFECT.StatusPoison", "icons/svg/poison.svg"));
    ("radiation", ("EFFECT.StatusRadiation", "icons/svg/radiation.svg"));
    ("regen", ("EFFECT.StatusRegen", "icons/svg/regen.svg"));
    ("degen", ("EFFECT.StatusDegen", "icons/svg/degen.svg"));
    ("upgrade", ("EFFECT.StatusUpgrade", "icons/svg/upgrade.svg"));
    ("downgrade", ("EFFECT.StatusDowngrade", "icons/svg/downgrade.svg"));
    ("target", ("EFFECT.StatusTarget", "icons/svg/target.svg"));
    ("eye", ("EFFECT.StatusMarked", "icons/svg/eye.svg"));
    ("curse", ("EFFECT.StatusCursed", "icons/svg/sun.svg"));
    ("bless", ("EFFECT.StatusBlessed", "icons/svg/angel.svg"));
    ("fireShield", ("EFFECT.StatusFireShield", "icons/svg/fire-shield.svg"));
    ("coldShield", ("EFFECT.StatusIceShield", "icons/svg/ice-shield.svg"));
    ("magicShield", ("EFFECT.StatusMagicShield", "icons/svg/mage-shield.svg"));
    ("holyShield", ("EFFECT.StatusHolyShield", "icons/svg/holy-shield.svg")) ].

(** The documented default of [statusEffects] as the array literal it is. *)
Definition statusEffects_default : expr :=
  EArray
    (map (fun e => EObject [ ("id", EStr (fst e));
                             ("label", EStr (fst (snd e)));
                             ("icon", EStr (snd (snd e))) ])
         statusEffects).

(** [Combat.defeatedStatusId: string], documented default ['dead']. *)
Definition defeatedStatusId : string := "dead".

(** [controlIcons], each a [string], with the documented defaults. *)
Definition controlIcons : list (string * string) :=
  [ ("combat", "icons/svg/combat.svg");
    ("visibility", "icons/svg/cowled.svg");
    ("effects", "icons/svg/aura.svg");
    ("lock", "icons/svg/padlock.svg");
    ("up", "icons/svg/up.svg");
    ("down", "icons/svg/down.svg");
    ("defeated", "icons/svg/skull.svg");
    ("light", "icons/svg/light.svg");
    ("lightOff", "icons/svg/light-off.svg");
    ("template", "icons/svg/explosion.svg");
    ("sound", "icons/svg/sound.svg");
    ("soundOff", "icons/svg/sound-off.svg");
    ("doorClosed", "icons/svg/door-closed-outline.svg");
    ("doorOpen", "icons/svg/door-open-outline.svg");
    ("doorSecret", "icons/svg/door-secret-outline.svg");
    ("doorLocked", "icons/svg/door-locked-outline.svg") ].

(** Constructor types for the fallbacks of [documentClass] in which every
    fallback is the document class its configuration key names. *)
Definition sample_typeof (F : string) : ty :=
  match List.find (fun kf => String.eqb (snd kf) F) documentClass with
  | Some kf =>
      TObject [ required "metadata" (TObject [required "name" (TStrLit (fst kf))]);
                required "fallback" (TStrLit F) ]
  | None => TNever
  end.

End CONFIG.

(** * Properties *)

Import TS Decl Check.

(** ** Equations of the assignability check *)
Section AssignableFacts.
Context (host : Host).

Lemma assignable_union (ts : list ty) (e : expr) :
  assignable host (TUnion ts) e = existsb (fun t => assignable host t e) ts.
Proof.
  induction ts as [|t ts IH]; [reflexivity|].
  simpl in *. now rewrite IH.
Qed.

Lemma assignable_object (fs : list field) (ps : list (string * expr)) :
  assignable host (TObject fs) (EObject ps) =
  forallb (property_ok host ps) fs && forallb (fun p => has_key (fst p) fs) ps.
Proof.
  simpl. f_equal.
  induction fs as [|[k [opt t]] fs IH]; [reflexivity|].
  simpl. rewrite IH. reflexivity.
Qed.

Lemma never_rejects (e : expr) : assignable host TNever e = false.
Proof. reflexivity. Qed.

Lemma unknown_accepts (e : expr) : assignable host TUnknown e = true.
Proof. reflexivity. Qed.

(** Adding an alternative to a union loses no expression. *)
Lemma union_widens (t : ty) (ts : list ty) (e : expr) :
  assignable host (TUnion ts) e = true ->
  assignable host (TUnion (t :: ts)) e = true.
Proof.
  rewrite !assignable_union. cbn [existsb]. intros ->. apply orb_true_r.
Qed.

(** An array literal fits a tuple type only at the tuple's length. *)
Lemma tuple_arity (ts : list ty) (es : list expr) :
  assignable host (TTuple ts) (EArray es) = true -> length es = length ts.
Proof.
  simpl. revert es.
  induction ts as [|t ts IH]; intros [|e es]; try discriminate; [reflexivity|].
  rewrite andb_true_iff. intros [_ Hrest]. simpl. f_equal. now apply IH.
Qed.

Lemma assoc_In {A} (k : string) (l : list (string * A)) (a : A) :
  assoc k l = Some a -> In (k, a) l.
Proof.
  induction l as [|[k' a'] l IH]; simpl; [discriminate|].
  destruct (String.eqb_spec k k') as [->|Hne]; [intros [= ->]; now left | right; auto].
Qed.

Lemma has_key_elem_of {A} (k : string) (l : list (string * A)) :
  has_key k l = true <-> k ∈ keys l.
Proof.
  unfold has_key, keys. induction l as [|[k' a] l IH]; simpl.
  - split; [discriminate | intros Hin; inversion Hin].
  - destruct (String.eqb_spec k k') as [->|Hne].
    + split; [left | reflexivity].
    + rewrite IH. split; [now right | intros Hin].
      inversion Hin; subst; [contradiction | assumption].
Qed.

Lemma forallb_refuted {A} (f : A -> bool) (l : list A) (x : A) :
  In x l -> f x = false -> forallb f l = false.
Proof.
  intros Hin Hx. destruct (forallb f l) eqn:Hall; [|reflexivity].
  rewrite forallb_forall in Hall. rewrite (Hall x Hin) in Hx. discriminate.
Qed.

(** An object literal with a property that does not fit its declared type is
    rejected, whatever the other properties are. *)
Lemma object_rejected (fs : list field) (ps : list (string * expr))
    (k : string) (opt : bool) (t : ty) (e : expr) :
  assoc k fs = Some (opt, t) ->
  assoc k ps = Some e ->
  assignable host t e = false ->
  is_undefined e = false ->
  assignable host (TObject fs) (EObject ps) = false.
Proof.
  intros Hfs Hps Ht Hu. rewrite assignable_object.
  apply andb_false_iff. left.
  apply forallb_refuted with (k, (opt, t)); [now apply assoc_In|].
  unfold property_ok. simpl. rewrite Hps, Ht, Hu.
  now destruct opt.
Qed.

Lemma assignable_enum_type (tbl : list (string * Z)) (e : expr) :
  assignable host (Wall.enum_type tbl) e =
  match literal_number host e with
  | Some n => Wall.in_range tbl n
  | None => false
  end.
Proof.
  unfold Wall.enum_type, Wall.in_range. rewrite assignable_union.
  induction tbl as [|[k v] tbl IH]; simpl.
  - now destruct (literal_number host e).
  - rewrite IH. destruct (literal_number host e); reflexivity.
Qed.

Lemma assignable_nullable_enum (tbl : list (string * Z)) (e : expr) :
  assignable host (TUnion [Wall.enum_type tbl; TNull]) e =
  assignable host (Wall.enum_type tbl) e || is_null e.
Proof. rewrite assignable_union. simpl. now rewrite orb_false_r. Qed.

Lemma in_range_assoc (tbl : list (string * Z)) (m : string) (n : Z) :
  assoc m tbl = Some n -> Wall.in_range tbl n = true.
Proof.
  intros Hm. unfold Wall.in_range. apply existsb_exists.
  exists n. split; [|apply Z.eqb_refl].
  apply assoc_In in Hm. now apply (in_map snd) in Hm.
Qed.

(** A member of a constant table has the type of the table's members. *)
Lemma assignable_member (en m : string) (tbl : list (string * Z)) :
  enumeration host en = Some tbl ->
  has_key m tbl = true ->
  assignable host (Wall.enum_type tbl) (EConst en m) = true.
Proof.
  intros Hen Hm. rewrite assignable_enum_type. simpl. rewrite Hen.
  unfold has_key in Hm. destruct (assoc m tbl) as [n|] eqn:Hn; [|discriminate].
  now apply in_range_assoc with m.
Qed.

End AssignableFacts.

(** ** The type tests of [WallData] *)
Section WallFacts.
Import Wall.
Context (host : Host).

(** Case analysis on a chain of comparisons of a field name with the names
    the declaration knows. *)
Ltac by_field Hk :=
  repeat match type of Hk with
  | (if String.eqb ?a ?b then _ else _) = _ =>
      destruct (String.eqb_spec a b) as [->|?]
  end; try discriminate.

(** The check of an object literal against the fields of [WallData], field
    by field. *)
Ltac check_fields :=
  unfold holds, type_of_new; cbn [ctor WallData arguments_ok required];
  rewrite assignable_object;
  unfold WallData_fields, optional, required;
  cbn [forallb property_ok assoc fst snd String.eqb Ascii.eqb Bool.eqb c_10_20_30_40];
  rewrite ?assignable_nullable_enum.

Lemma out_of_range_spec (v : Z) :
  out_of_range host v = true ->
  forall k tbl, enumeration_of host k = Some tbl -> in_range tbl v = false.
Proof.
  unfold out_of_range. cbn [forallb]. rewrite !andb_true_iff, !negb_true_iff.
  intros (Hd & Hs & Ht & Hm & Hn & _) k tbl Hk. unfold enumeration_of in Hk.
  by_field Hk; now injection Hk as <-.
Qed.

Lemma enumerated_fields_spec (k : string) :
  k ∈ enumerated_fields -> is_Some (enumeration_of host k).
Proof.
  unfold enumerated_fields. rewrite !elem_of_cons, elem_of_nil.
  intros [->|[->|[->|[->|[->|[->|[]]]]]]]; eexists; reflexivity.
Qed.

(** The first four assertions. *)
Lemma coordinates_tests_hold : Forall (holds host) (take 4 (wallData_tests host)).
Proof. repeat constructor. Qed.

(** An array literal for [c] must have exactly four elements. *)
Lemma c_arity (es : list expr) :
  length es <> 4%nat ->
  type_of_new host (WallData host) [EObject [("c", EArray es)]] = None.
Proof.
  intros Hlen.
  assert (Hrej : assignable host (TObject (WallData_fields host))
                   (EObject [("c", EArray es)]) = false).
  { eapply (object_rejected host _ _ "c"); [reflexivity | reflexivity | | reflexivity].
    destruct (assignable host _ (EArray es)) eqn:Hc; [|reflexivity].
    apply tuple_arity in Hc. contradiction. }
  unfold type_of_new. cbn [ctor WallData arguments_ok required].
  now rewrite Hrej.
Qed.

(** Every field but [c] may be [null], and may be [undefined]: the fifth and
    sixth assertions. *)
Lemma null_and_undefined_tests_hold :
  Forall (holds host) (take 2 (drop 4 (wallData_tests host))).
Proof.
  cbn [take drop wallData_tests].
  repeat apply List.Forall_cons; [| |apply List.Forall_nil].
  all: check_fields; rewrite !assignable_enum_type; reflexivity.
Qed.

(** The seventh assertion. *)
Lemma constants_accepted :
  constants_declared host = true ->
  type_of_new host (WallData host)
    [EObject [ c_10_20_30_40;
               ("move", EConst "WALL_MOVEMENT_TYPES" "NORMAL");
               ("sense", EConst "WALL_SENSE_TYPES" "NORMAL");
               ("sound", EConst "WALL_SENSE_TYPES" "NORMAL");
               ("dir", EConst "WALL_DIRECTIONS" "BOTH");
               ("door", EConst "WALL_DOOR_TYPES" "NONE");
               ("ds", EConst "WALL_DOOR_STATES" "CLOSED");
               ("flags", EObject []) ]] = Some WallData_type.
Proof.
  unfold constants_declared. rewrite !andb_true_iff.
  intros ((((Hm & Hs) & Hd) & Ht) & Hds).
  check_fields.
  rewrite (assignable_member host "WALL_MOVEMENT_TYPES" "NORMAL" _ eq_refl Hm).
  rewrite (assignable_member host "WALL_SENSE_TYPES" "NORMAL" _ eq_refl Hs).
  rewrite (assignable_member host "WALL_DIRECTIONS" "BOTH" _ eq_refl Hd).
  rewrite (assignable_member host "WALL_DOOR_TYPES" "NONE" _ eq_refl Ht).
  rewrite (assignable_member host "WALL_DOOR_STATES" "CLOSED" _ eq_refl Hds).
  reflexivity.
Qed.

(** A value outside the constant table of an enumerated field is a type
    error, next to a well-formed [c]. *)
Lemma enumerated_field_rejects (k : string) (tbl : list (string * Z)) (v : Z) :
  enumeration_of host k = Some tbl ->
  in_range tbl v = false ->
  type_of_new host (WallData host) [EObject [c_10_20_30_40; (k, ENum v)]] = None.
Proof.
  intros Hk Hv.
  assert (Hrej : assignable host (TObject (WallData_fields host))
                   (EObject [c_10_20_30_40; (k, ENum v)]) = false).
  { unfold enumeration_of in Hk. by_field Hk; injection Hk as <-.
    all: match goal with
         | |- assignable _ _ (EObject [_; (?f, _)]) = false =>
             eapply (object_rejected host _ _ f)
         end;
      [ reflexivity | reflexivity
      | rewrite assignable_nullable_enum, assignable_enum_type; simpl; now rewrite Hv
      | reflexivity ]. }
  unfold type_of_new. cbn [ctor WallData arguments_ok required].
  now rewrite Hrej.
Qed.

Lemma out_of_range_rejected (v : Z) (k : string) :
  out_of_range host v = true ->
  k ∈ enumerated_fields ->
  type_of_new host (WallData host) [EObject [c_10_20_30_40; (k, ENum v)]] = None.
Proof.
  intros Hrange Hk. destruct (enumerated_fields_spec k Hk) as [tbl Htbl].
  apply enumerated_field_rejects with tbl; [assumption|].
  now apply (out_of_range_spec v Hrange k).
Qed.

(** The last six assertions. *)
Lemma out_of_range_tests_hold :
  out_of_range host 9999 = true ->
  Forall (holds host) (drop 7 (wallData_tests host)).
Proof.
  intros Hrange. cbn [drop wallData_tests].
  repeat (apply List.Forall_cons;
          [apply (out_of_range_rejected 9999 _ Hrange); compute_done|]).
  apply List.Forall_nil.
Qed.

(** X12: the whole type test passes on the modelled declaration, for every
    host whose tables have the constants the test names and do not have
    9999. *)
Lemma wallData_tests_hold :
  constants_declared host = true ->
  out_of_range host 9999 = true ->
  Forall (holds host) (wallData_tests host).
Proof.
  intros Hconst Hrange.
  rewrite <- (take_drop 4 (wallData_tests host)). apply Forall_app.
  split; [apply coordinates_tests_hold|].
  rewrite <- (take_drop 2 (drop 4 (wallData_tests host))). apply Forall_app.
  split; [apply null_and_undefined_tests_hold|].
  rewrite drop_drop. cbn [Nat.add].
  rewrite <- (take_drop 1 (drop 6 (wallData_tests host))). apply Forall_app.
  split.
  - cbn [take drop wallData_tests].
    apply List.Forall_cons; [now apply constants_accepted | apply List.Forall_nil].
  - rewrite drop_drop. cbn [Nat.add]. now apply out_of_range_tests_hold.
Qed.

(** C1: constructing [foundry.data.WallData] with no argument, with an empty
    object, or with a [c] of only two numbers is rejected by the type
    checker, and constructing it with a [c] of four numbers type-checks as a
    [foundry.data.WallData].  These are the first four assertions of the type
    test; the numbers themselves do not matter. *)
Theorem WallData_requires_coordinates :
  Forall (holds host) (take 4 (wallData_tests host)) /\
  type_of_new host (WallData host) [] = None /\
  type_of_new host (WallData host) [EObject []] = None /\
  type_of_new host (WallData host) [EObject [("c", EArray [ENum 10; ENum 20])]] = None /\
  type_of_new host (WallData host) [EObject [("c", EArray [ENum 10; ENum 20; ENum 30; ENum 40])]]
    = Some WallData_type /\
  (forall x y : Z,
     type_of_new host (WallData host) [EObject [("c", EArray [ENum x; ENum y])]] = None) /\
  (forall x0 y0 x1 y1 : Z,
     type_of_new host (WallData host)
       [EObject [("c", EArray [ENum x0; ENum y0; ENum x1; ENum y1])]] = Some WallData_type).
Proof.
  split; [apply coordinates_tests_hold|].
  repeat split; intros; reflexivity.
Qed.

(** C2: for each of the enumerated fields [move], [sense], [sound], [dir],
    [door] and [ds], constructing [foundry.data.WallData] with that field set
    to 9999, a value of none of the constant tables, is a type error, although
    [c] is the valid tuple [[10, 20, 30, 40]].  These are the last six
    assertions of the type test. *)
Theorem WallData_rejects_out_of_range (Hrange : out_of_range host 9999 = true) :
  Forall (holds host) (drop 7 (wallData_tests host)) /\
  forall k : string, k ∈ enumerated_fields ->
    type_of_new host (WallData host) [EObject [c_10_20_30_40; (k, ENum 9999)]] = None.
Proof.
  split; [now apply out_of_range_tests_hold|].
  intros k Hk. now apply out_of_range_rejected.
Qed.

(** C3: the shape of [WallData] consists of the fields [_id], [c], [move],
    [sense], [sound], [dir], [door], [ds] and [flags], [c] being a tuple of
    four numbers, and the construction that gives every field a member of
    its constant table ([WALL_MOVEMENT_TYPES.NORMAL], [WALL_SENSE_TYPES.NORMAL],
    [WALL_DIRECTIONS.BOTH], [WALL_DOOR_TYPES.NONE], [WALL_DOOR_STATES.CLOSED])
    and [flags: {}] type-checks as a [foundry.data.WallData]: the seventh
    assertion of the type test. *)
Theorem WallData_full_construction (Hconst : constants_declared host = true) :
  keys (WallData_fields host)
    = ["_id"; "c"; "move"; "sense"; "sound"; "dir"; "door"; "ds"; "flags"] /\
  assoc "c" (WallData_fields host)
    = Some (false, TTuple [TNumber; TNumber; TNumber; TNumber]) /\
  Forall (holds host) (take 1 (drop 6 (wallData_tests host))) /\
  type_of_new host (WallData host)
    [EObject [ ("c", EArray [ENum 10; ENum 20; ENum 30; ENum 40]);
               ("move", EConst "WALL_MOVEMENT_TYPES" "NORMAL");
               ("sense", EConst "WALL_SENSE_TYPES" "NORMAL");
               ("sound", EConst "WALL_SENSE_TYPES" "NORMAL");
               ("dir", EConst "WALL_DIRECTIONS" "BOTH");
               ("door", EConst "WALL_DOOR_TYPES" "NONE");
               ("ds", EConst "WALL_DOOR_STATES" "CLOSED");
               ("flags", EObject []) ]] = Some WallData_type.
Proof.
  split; [reflexivity|]. split; [reflexivity|].
  pose proof (constants_accepted Hconst) as Hacc.
  split; [|exact Hacc].
  cbn [take drop wallData_tests].
  apply List.Forall_cons; [exact Hacc | apply List.Forall_nil].
Qed.

End WallFacts.

Lemma WallData_rejects_out_of_range_witness :
  Wall.out_of_range Wall.sample_host 9999 = true /\
  forall k : string, k ∈ Wall.enumerated_fields ->
    type_of_new Wall.sample_host (Wall.WallData Wall.sample_host)
      [EObject [Wall.c_10_20_30_40; (k, ENum 9999)]] = None.
Proof.
  split; [reflexivity|].
  apply (WallData_rejects_out_of_range Wall.sample_host). reflexivity.
Defined.

Lemma WallData_full_construction_witness :
  Wall.constants_declared Wall.sample_host = true /\
  Forall (holds Wall.sample_host) (take 1 (drop 6 (Wall.wallData_tests Wall.sample_host))).
Proof.
  split; [reflexivity|].
  apply (WallData_full_construction Wall.sample_host). reflexivity.
Defined.

(** ** The configured document class *)
Section ConfigFacts.
Import Config.

Lemma property_is_Some (i : interface) (k : string) :
  has_key k i = true -> is_Some (property i k).
Proof.
  unfold has_key, property.
  destruct (assoc k i) as [[opt t]|]; [eauto | discriminate].
Qed.

(** Merging a consumer's declaration into an interface that the repository
    declares empty gives the consumer's declaration. *)
Lemma merge_empty (augmentation : interface) :
  merge DocumentClassConfig augmentation = augmentation /\
  merge DataConfig augmentation = augmentation /\
  merge SourceConfig augmentation = augmentation /\
  merge FlagConfig augmentation = augmentation.
Proof. repeat split. Qed.

(** A constructor whose [metadata.name] is only known to be a [string], as
    for the generic document constructor, keeps its own type. *)
Lemma ConfiguredDocumentClassOrDefault_wide_name (config : interface) (F : ty) :
  document_name F = Some TString ->
  ConfiguredDocumentClassOrDefault config F = Some F.
Proof.
  intros Hname. unfold ConfiguredDocumentClassOrDefault. now rewrite Hname.
Qed.

(** C4: for a document constructor [F] whose metadata names the document
    [N], [ConfiguredDocumentClassOrDefault<F>] is [DocumentClassConfig[N]]
    when [N] is a key of the interface [DocumentClassConfig], and [F] itself
    otherwise; the interfaces [DocumentClassConfig], [DataConfig],
    [SourceConfig] and [FlagConfig] are declared empty, so that after
    declaration merging they are what the consumer declares. *)
Theorem ConfiguredDocumentClassOrDefault_spec
    (augmentation : interface) (F : ty) (N : string)
    (Hname : document_name F = Some (TStrLit N)) :
  (DocumentClassConfig = [] /\ DataConfig = [] /\ SourceConfig = [] /\ FlagConfig = []) /\
  merge DocumentClassConfig augmentation = augmentation /\
  (N ∈ keys (merge DocumentClassConfig augmentation) ->
     ConfiguredDocumentClassOrDefault (merge DocumentClassConfig augmentation) F
       = property (merge DocumentClassConfig augmentation) N
     /\ is_Some (property (merge DocumentClassConfig augmentation) N)) /\
  (N ∉ keys (merge DocumentClassConfig augmentation) ->
     ConfiguredDocumentClassOrDefault (merge DocumentClassConfig augmentation) F = Some F).
Proof.
  split; [repeat split|]. split; [reflexivity|].
  generalize (merge DocumentClassConfig augmentation). intros config.
  unfold ConfiguredDocumentClassOrDefault. rewrite Hname.
  cbn [extends_keyof indexed_by].
  split.
  - intros Hin. apply has_key_elem_of in Hin. rewrite Hin.
    split; [reflexivity | now apply property_is_Some].
  - intros Hnin. destruct (has_key N config) eqn:Hk; [|reflexivity].
    apply has_key_elem_of in Hk. contradiction.
Qed.

Lemma ConfiguredDocumentClassOrDefault_spec_witness :
  document_name (document_constructor "Actor") = Some (TStrLit "Actor") /\
  ConfiguredDocumentClassOrDefault (merge DocumentClassConfig MyActor_config)
    (document_constructor "Actor") = Some (TTypeof "MyActor") /\
  ConfiguredDocumentClassOrDefault (merge DocumentClassConfig [])
    (document_constructor "Actor") = Some (document_constructor "Actor").
Proof.
  split; [reflexivity|]. split.
  - destruct (ConfiguredDocumentClassOrDefault_spec MyActor_config
                (document_constructor "Actor") "Actor" eq_refl)
      as (_ & _ & Hkey & _).
    destruct Hkey as [Heq _]; [compute_done | exact Heq].
  - destruct (ConfiguredDocumentClassOrDefault_spec []
                (document_constructor "Actor") "Actor" eq_refl)
      as (_ & _ & _ & Hother).
    apply Hother. compute_done.
Defined.

End ConfigFacts.

(** ** The buffer threshold *)
Section AudioFacts.
Import Audio.



End AudioFacts.

(** ** The keyboard manager *)
Section KeyboardFacts.

(** C9: every movement key stands for a non-empty list of directions among
    up, down, left and right; the keys with two directions are exactly
    [Numpad1], [Numpad3], [Numpad7] and [Numpad9], and every other key (the
    letters in both cases, the arrows, [Numpad2], [Numpad4], [Numpad6] and
    [Numpad8]) stands for one direction. *)
Theorem MOVEMENT_KEYS_directions :
  property_type KeyboardManager "MOVEMENT_KEYS"
    = Some (TObject (map (fun kv => required (fst kv) (tuple_of_literals (snd kv)))
                         MOVEMENT_KEYS)) /\
  NoDup (keys MOVEMENT_KEYS) /\
  Forall (fun kv => snd kv <> [] /\ Forall (fun d => d ∈ directions) (snd kv))
    MOVEMENT_KEYS /\
  keys (filter (fun kv => length (snd kv) = 2%nat) MOVEMENT_KEYS)
    = ["Numpad1"; "Numpad3"; "Numpad7"; "Numpad9"] /\
  keys (filter (fun kv => length (snd kv) = 1%nat) MOVEMENT_KEYS)
    = [ "w"; "a"; "s"; "d"; "W"; "A"; "S"; "D";
        "ArrowUp"; "ArrowRight"; "ArrowDown"; "ArrowLeft";
        "Numpad2"; "Numpad4"; "Numpad6"; "Numpad8" ] /\
  Forall (fun kv => length (snd kv) = 1%nat \/ length (snd kv) = 2%nat)
    MOVEMENT_KEYS.
Proof.
  split; [reflexivity|]. split; [compute_done|]. split; [compute_done|].
  split; [reflexivity|]. split; [reflexivity|]. compute_done.
Qed.

End KeyboardFacts.

(** ** Documented defaults *)
Section InstanceFacts.
Context (host : Host).

(** Every documented default fits the declared type of its member. *)
Lemma defaults_well_typed :
  Forall (fun c : class_decl =>
    Forall (fun m : member =>
      match sig m, defaultValue m with
      | Property t, Some d => assignable host t d = true
      | _, _ => True
      end) (members c))
    [KeyboardManager; AudioContainer; Users].
Proof. repeat constructor. Qed.

(** C10: the [current] field of [Users], the [User] entity of the currently
    connected user, defaults to [null], and its declared type admits [null]
    and the stored documents of the configured [User] class, nothing else. *)
Theorem Users_current_default :
  default_of host Users "current" = Some VNull /\
  property_type Users "current" = Some (TUnion [StoredUser; TNull]) /\
  forall e : expr,
    assignable host (TUnion [StoredUser; TNull]) e = true
    <-> e = ENull \/ assignable host StoredUser e = true.
Proof.
  split; [reflexivity|]. split; [reflexivity|].
  intros e. rewrite assignable_union. cbn [existsb].
  rewrite orb_false_r, orb_true_iff.
  split; intros [He|He]; auto.
  - left. destruct e; try discriminate; reflexivity.
  - right. subst. reflexivity.
Qed.

End InstanceFacts.

(** ** More on the configured document class *)
Section ConfigMore.
Import Config.

Lemma assoc_app {A} (k : string) (l1 l2 : list (string * A)) :
  assoc k (l1 ++ l2)%list = match assoc k l1 with Some a => Some a | None => assoc k l2 end.
Proof.
  induction l1 as [|[k' a] l1 IH]; [reflexivity|].
  simpl. now destruct (String.eqb k k').
Qed.

Lemma has_key_false {A} (k : string) (l : list (string * A)) :
  has_key k l = false <-> k ∉ keys l.
Proof.
  rewrite <- has_key_elem_of. now destruct (has_key k l).
Qed.

Lemma assoc_merge (k : string) (declared augmentation : interface) :
  assoc k (merge declared augmentation)
  = match assoc k declared with
    | Some a => Some a
    | None => assoc k augmentation
    end.
Proof. apply assoc_app. Qed.

(** The conditional type at a constructor with a literal document name. *)
Lemma configured_literal (config : interface) (F : ty) (N : string) :
  document_name F = Some (TStrLit N) ->
  ConfiguredDocumentClassOrDefault config F
    = if has_key N config then property config N else Some F.
Proof.
  intros Hname. unfold ConfiguredDocumentClassOrDefault. now rewrite Hname.
Qed.

(** X1: declarations merged into [DocumentClassConfig] that do not mention
    the document name [N] leave the configured class of a document named [N]
    as it was. *)
Theorem augmentation_elsewhere
    (config augmentation : interface) (F : ty) (N : string)
    (Hname : document_name F = Some (TStrLit N))
    (Hother : N ∉ keys augmentation) :
  ConfiguredDocumentClassOrDefault (merge config augmentation) F
    = ConfiguredDocumentClassOrDefault config F.
Proof.
  rewrite !(configured_literal _ F N Hname).
  apply has_key_false in Hother. unfold has_key in Hother.
  unfold has_key, property. rewrite assoc_merge.
  destruct (assoc N config) as [[opt t]|]; [reflexivity|].
  destruct (assoc N augmentation); [discriminate | reflexivity].
Qed.

Lemma augmentation_elsewhere_witness :
  document_name (document_constructor "Item") = Some (TStrLit "Item") /\
  ("Item" ∉ keys MyActor_config) /\
  ConfiguredDocumentClassOrDefault (merge DocumentClassConfig MyActor_config)
    (document_constructor "Item") = Some (document_constructor "Item").
Proof.
  split; [reflexivity|]. split; [compute_done|].
  rewrite (augmentation_elsewhere DocumentClassConfig MyActor_config
             (document_constructor "Item") "Item" eq_refl); [reflexivity|].
  compute_done.
Defined.

(** X2: configuring is idempotent: when the class configured for [N] is
    itself a document constructor named [N], the conditional type maps its
    own result to itself. *)
Theorem configured_class_is_fixed (config : interface) (F T : ty) (N : string)
    (Hname : document_name F = Some (TStrLit N))
    (Hconfigured : forall C, property config N = Some C ->
                     document_name C = Some (TStrLit N))
    (HT : ConfiguredDocumentClassOrDefault config F = Some T) :
  ConfiguredDocumentClassOrDefault config T = Some T.
Proof.
  rewrite (configured_literal _ F N Hname) in HT.
  destruct (has_key N config) eqn:Hkey.
  - rewrite (configured_literal _ T N (Hconfigured T HT)), Hkey. exact HT.
  - injection HT as <-. now rewrite (configured_literal _ F N Hname), Hkey.
Qed.

(** X3: the conditional type does not distribute over a union of document
    names: when every name of the union is a key, the result is the union
    of the configured classes, and as soon as one name is not a key the
    fallback is kept. *)
Theorem union_of_names (config : interface) (F : ty) (Ns : list string)
    (Hname : document_name F = Some (TUnion (map TStrLit Ns))) :
  (Forall (fun N => N ∈ keys config) Ns ->
     exists ts, ConfiguredDocumentClassOrDefault config F = Some (TUnion ts) /\
                Forall2 (fun N t => property config N = Some t) Ns ts) /\
  (Exists (fun N => N ∉ keys config) Ns ->
     ConfiguredDocumentClassOrDefault config F = Some F).
Proof.
  unfold ConfiguredDocumentClassOrDefault. rewrite Hname. clear Hname.
  split.
  - intros Hall.
    assert (Hext : extends_keyof (TUnion (map TStrLit Ns)) config = true).
    { simpl. induction Hall as [|N Ns HN _ IH]; [reflexivity|].
      simpl. apply has_key_elem_of in HN. now rewrite HN. }
    rewrite Hext. simpl.
    induction Hall as [|N Ns HN Hall IH]; [exists []; split; [reflexivity|constructor]|].
    assert (Hext' : extends_keyof (TUnion (map TStrLit Ns)) config = true).
    { simpl in Hext |- *. apply andb_true_iff in Hext. apply Hext. }
    destruct (IH Hext') as (ts & Hts & Hprops).
    apply has_key_elem_of in HN.
    destruct (property_is_Some config N HN) as [t Ht].
    exists (t :: ts). split; [|now constructor].
    simpl. rewrite Ht.
    simpl in Hts.
    destruct ((fix each (ns : list ty) : option (list ty) := _) (map TStrLit Ns))
      as [ts'|]; [|discriminate].
    injection Hts as <-. reflexivity.
  - intros Hex.
    assert (Hext : extends_keyof (TUnion (map TStrLit Ns)) config = false).
    { simpl. induction Hex as [N Ns HN|N Ns _ IH].
      - apply has_key_false in HN. simpl. now rewrite HN.
      - simpl. rewrite IH. apply andb_false_r. }
    now rewrite Hext.
Qed.

Lemma configured_class_is_fixed_witness :
  document_name (CONFIG.sample_typeof "Actor") = Some (TStrLit "Actor") /\
  ConfiguredDocumentClassOrDefault [required "Actor" (document_constructor "Actor")]
    (CONFIG.sample_typeof "Actor") = Some (document_constructor "Actor") /\
  ConfiguredDocumentClassOrDefault [required "Actor" (document_constructor "Actor")]
    (document_constructor "Actor") = Some (document_constructor "Actor").
Proof.
  split; [reflexivity|]. split; [reflexivity|].
  apply (configured_class_is_fixed
           [required "Actor" (document_constructor "Actor")]
           (CONFIG.sample_typeof "Actor") (document_constructor "Actor") "Actor").
  - reflexivity.
  - intros C HC. injection HC as <-. reflexivity.
  - reflexivity.
Defined.

Lemma union_of_names_witness :
  document_name
    (TObject [required "metadata"
                (TObject [required "name" (TUnion (map TStrLit ["Actor"; "Item"]))])])
    = Some (TUnion (map TStrLit ["Actor"; "Item"])) /\
  Exists (fun N => N ∉ keys MyActor_config) ["Actor"; "Item"] /\
  ConfiguredDocumentClassOrDefault MyActor_config
    (TObject [required "metadata"
                (TObject [required "name" (TUnion (map TStrLit ["Actor"; "Item"]))])])
    = Some (TObject [required "metadata"
                (TObject [required "name" (TUnion (map TStrLit ["Actor"; "Item"]))])]).
Proof.
  split; [reflexivity|].
  assert (Hex : Exists (fun N => N ∉ keys MyActor_config) ["Actor"; "Item"]).
  { apply Exists_cons_tl, Exists_cons_hd. compute_done. }
  split; [exact Hex|].
  apply (union_of_names MyActor_config
           (TObject [required "metadata"
              (TObject [required "name" (TUnion (map TStrLit ["Actor"; "Item"]))])])
           ["Actor"; "Item"] eq_refl).
  exact Hex.
Defined.

(** In [documentClass] every key is bound once. *)
Lemma documentClass_assoc :
  Forall (fun kf => assoc (fst kf) CONFIG.documentClass = Some (snd kf))
    CONFIG.documentClass.
Proof. repeat constructor. Qed.

(** X4: each of the twenty-five [documentClass] entries of [CONFIG], whose
    fallback is the document class its key names, is what the consumer
    declares under that key in [DocumentClassConfig], and the fallback when
    the consumer declares nothing for it. *)
Theorem CONFIG_documentClass_resolution
    (typeof : string -> ty) (augmentation : interface)
    (Hnames : Forall (fun kf => document_name (typeof (snd kf)) = Some (TStrLit (fst kf)))
                CONFIG.documentClass) :
  Forall (fun kf =>
            CONFIG.documentClass_type typeof
              (merge DocumentClassConfig augmentation) (fst kf)
            = if has_key (fst kf) augmentation
              then property augmentation (fst kf)
              else Some (typeof (snd kf)))
    CONFIG.documentClass.
Proof.
  pose proof documentClass_assoc as Hassoc.
  rewrite Forall_forall in *. intros kf Hkf.
  unfold CONFIG.documentClass_type. rewrite (Hassoc kf Hkf).
  apply configured_literal. now apply Hnames.
Qed.

Lemma CONFIG_documentClass_resolution_witness :
  Forall (fun kf => document_name (CONFIG.sample_typeof (snd kf)) = Some (TStrLit (fst kf)))
    CONFIG.documentClass /\
  CONFIG.documentClass_type CONFIG.sample_typeof
    (merge DocumentClassConfig MyActor_config) "Actor" = Some (TTypeof "MyActor") /\
  CONFIG.documentClass_type CONFIG.sample_typeof
    (merge DocumentClassConfig MyActor_config) "Wall"
    = Some (CONFIG.sample_typeof "WallDocument").
Proof.
  assert (Hnames : Forall (fun kf => document_name (CONFIG.sample_typeof (snd kf))
                                    = Some (TStrLit (fst kf))) CONFIG.documentClass)
    by (repeat constructor).
  split; [exact Hnames|].
  pose proof (CONFIG_documentClass_resolution CONFIG.sample_typeof MyActor_config Hnames)
    as Hall.
  rewrite Forall_forall in Hall. split.
  - apply (Hall ("Actor", "Actor")). compute_done.
  - apply (Hall ("Wall", "WallDocument")). compute_done.
Defined.

End ConfigMore.

(** ** More on the key tables *)
Section KeyTableFacts.
Import KeyTables.

(** X5: no key code occurs twice in [MOVEMENT_KEYS], [ZOOM_KEYS] and
    [DIGIT_KEYS] taken together: a movement key is neither a zoom key nor a
    digit key, and a zoom key is no digit key. *)
Theorem key_tables_disjoint :
  NoDup (keys MOVEMENT_KEYS ++ keys ZOOM_KEYS ++ DIGIT_KEYS)%list /\
  forall k : string,
    (k ∈ keys MOVEMENT_KEYS -> (k ∉ keys ZOOM_KEYS) /\ (k ∉ DIGIT_KEYS)) /\
    (k ∈ keys ZOOM_KEYS -> k ∉ DIGIT_KEYS).
Proof.
  assert (Hnd : NoDup (keys MOVEMENT_KEYS ++ keys ZOOM_KEYS ++ DIGIT_KEYS)%list)
    by compute_done.
  split; [exact Hnd|].
  apply NoDup_app in Hnd as (_ & Hmove & Hrest).
  apply NoDup_app in Hrest as (_ & Hzoom & _).
  intros k. split.
  - intros Hk. specialize (Hmove k Hk). rewrite elem_of_app in Hmove. tauto.
  - intros Hk. now apply Hzoom.
Qed.

Lemma vertical_cases (d : string) :
  is_vertical d = true -> d = "up" \/ d = "down".
Proof.
  unfold is_vertical. rewrite orb_true_iff, !String.eqb_eq. tauto.
Qed.

Lemma horizontal_cases (d : string) :
  is_horizontal d = true -> d = "left" \/ d = "right".
Proof.
  unfold is_horizontal. rewrite orb_true_iff, !String.eqb_eq. tauto.
Qed.

Lemma keys_for_nonempty (dirs : list string) :
  keys_for dirs <> [] -> exists k, (k, dirs) ∈ MOVEMENT_KEYS.
Proof.
  unfold keys_for, keys.
  destruct (filter _ MOVEMENT_KEYS) as [|[k ds] l] eqn:Hf; [contradiction|].
  intros _. exists k.
  assert (Hin : (k, ds) ∈ filter (fun kv => snd kv = dirs) MOVEMENT_KEYS)
    by (rewrite Hf; left).
  apply list_elem_of_filter in Hin as [Heq Hin]. simpl in Heq. now subst.
Qed.

(** X6: [MOVEMENT_KEYS] binds exactly the eight compass directions: each
    of up, down, left and right to four keys (the letter in both cases, the
    arrow and a numpad key), each diagonal to one numpad key, and nothing
    else, such as two opposite directions or a horizontal direction before a
    vertical one. *)
Theorem compass_bindings :
  keys_for ["up"] = ["w"; "W"; "ArrowUp"; "Numpad8"] /\
  keys_for ["down"] = ["s"; "S"; "ArrowDown"; "Numpad2"] /\
  keys_for ["left"] = ["a"; "A"; "ArrowLeft"; "Numpad4"] /\
  keys_for ["right"] = ["d"; "D"; "ArrowRight"; "Numpad6"] /\
  keys_for ["down"; "left"] = ["Numpad1"] /\
  keys_for ["down"; "right"] = ["Numpad3"] /\
  keys_for ["up"; "left"] = ["Numpad7"] /\
  keys_for ["up"; "right"] = ["Numpad9"] /\
  forall dirs : list string, keys_for dirs <> [] <-> compass dirs = true.
Proof.
  do 8 (split; [reflexivity|]).
  intros dirs. split.
  - intros Hne. destruct (keys_for_nonempty dirs Hne) as [k Hk].
    assert (Hall : Forall (fun kv => compass (snd kv) = true) MOVEMENT_KEYS)
      by (repeat constructor).
    rewrite Forall_forall in Hall. exact (Hall (k, dirs) Hk).
  - intros Hc.
    destruct dirs as [|v [|h [|? ?]]]; try discriminate; simpl in Hc.
    + apply orb_true_iff in Hc as [Hv|Hh].
      * destruct (vertical_cases v Hv) as [-> | ->]; discriminate.
      * destruct (horizontal_cases v Hh) as [-> | ->]; discriminate.
    + apply andb_true_iff in Hc as [Hv Hh].
      destruct (vertical_cases v Hv) as [-> | ->];
        destruct (horizontal_cases h Hh) as [-> | ->]; discriminate.
Qed.

(** Indexing the object type made from a table is looking the key up. *)
Lemma indexed_table {A} (f : A -> ty) (tbl : list (string * A)) (k : string) :
  Config.indexed_access
    (TObject (map (fun kv => required (fst kv) (f (snd kv))) tbl)) k
  = option_map f (assoc k tbl).
Proof.
  unfold Config.indexed_access, Config.property.
  induction tbl as [|[k' a] tbl IH]; [reflexivity|].
  simpl. destruct (String.eqb k k'); [reflexivity | exact IH].
Qed.

(** X7: the getters [moveKeys], [zoomKeys] and [digitKeys], declared as
    [typeof] of the static tables, have the types of those tables: indexing
    the type of [moveKeys] or [zoomKeys] by a key gives the literal type of
    the table's entry, and nothing for a key the table lacks. *)
Theorem getters_expose_tables :
  (exists T, getter_table KeyboardManager "moveKeys" = Some T /\
     property_type KeyboardManager "MOVEMENT_KEYS" = Some T /\
     forall k : string,
       Config.indexed_access T k
       = option_map tuple_of_literals (assoc k MOVEMENT_KEYS)) /\
  (exists T, getter_table KeyboardManager "zoomKeys" = Some T /\
     property_type KeyboardManager "ZOOM_KEYS" = Some T /\
     forall k : string,
       Config.indexed_access T k = option_map TStrLit (assoc k ZOOM_KEYS)) /\
  getter_table KeyboardManager "digitKeys" = Some (tuple_of_literals DIGIT_KEYS) /\
  getter_table KeyboardManager "hasFocus" = None.
Proof.
  split; [|split; [|split; reflexivity]].
  - eexists. split; [reflexivity|]. split; [reflexivity|].
    intros k. apply (indexed_table tuple_of_literals).
  - eexists. split; [reflexivity|]. split; [reflexivity|].
    intros k. apply (indexed_table TStrLit).
Qed.

Section WithHost.
Context (host : Host).

Lemma literal_tuple (l l' : list string) :
  assignable host (tuple_of_literals l) (EArray (map EStr l')) = true <-> l' = l.
Proof.
  unfold tuple_of_literals. simpl. revert l'.
  induction l as [|s l IH]; intros [|s' l']; simpl; try (split; (discriminate || reflexivity)).
  rewrite andb_true_iff, String.eqb_eq, IH.
  split; [intros [-> ->]; reflexivity | intros [= -> ->]; auto].
Qed.

(** X8: the declared types of the members with literal types admit only
    the documented value ([MOUSE_WHEEL_RATE_LIMIT] only 50, [_tabState] only
    0 or 1, [DIGIT_KEYS] only the ten digits in order, [Users.documentName]
    only ['User']), whereas those of [_wheelTime] and of
    [AudioContainer.MAX_BUFFER_DURATION], declared [number], admit every
    number.  This is about the types; who may assign is a matter of
    visibility. *)
Theorem literal_statics (n : Z) :
  (exists t, property_type KeyboardManager "MOUSE_WHEEL_RATE_LIMIT" = Some t /\
     (assignable host t (ENum n) = true <-> n = 50)) /\
  (exists t, property_type KeyboardManager "_tabState" = Some t /\
     (assignable host t (ENum n) = true <-> n = 0 \/ n = 1)) /\
  (exists t, property_type KeyboardManager "_wheelTime" = Some t /\
     assignable host t (ENum n) = true) /\
  (exists t, property_type AudioContainer "MAX_BUFFER_DURATION" = Some t /\
     assignable host t (ENum n) = true) /\
  (exists t, property_type KeyboardManager "DIGIT_KEYS" = Some t /\
     forall l : list string,
       assignable host t (EArray (map EStr l)) = true <-> l = DIGIT_KEYS) /\
  (exists t, property_type Users "documentName" = Some t /\
     forall s : string, assignable host t (EStr s) = true <-> s = "User").
Proof.
  split; [|split; [|split; [|split; [|split]]]];
    (eexists; split; [reflexivity|]).
  - simpl. apply Z.eqb_eq.
  - simpl. rewrite orb_false_r, orb_true_iff, !Z.eqb_eq. tauto.
  - reflexivity.
  - reflexivity.
  - intros l. apply literal_tuple.
  - intros s. simpl. apply String.eqb_eq.
Qed.

End WithHost.
End KeyTableFacts.

(** ** Documented defaults and constructors *)
Section ConstructFacts.
Context (host : Host).

(** X9: every [@defaultValue] that [KeyboardManager], [AudioContainer] and
    [Users] document for a property is a literal with a value, and fits the
    declared type of the property. *)
Theorem documented_defaults_fit :
  Forall (fun c : class_decl =>
    Forall (fun m : member =>
      match sig m, defaultValue m with
      | Property t, Some d =>
          assignable host t d = true /\ is_Some (eval host d)
      | _, _ => True
      end) (members c))
    [KeyboardManager; AudioContainer; Users].
Proof.
  repeat constructor; eexists; reflexivity.
Qed.

(** X11: [new AudioContainer(...)] type-checks exactly with one string
    argument, and [new KeyboardManager(...)] exactly with no argument. *)
Theorem constructor_arguments (args : list expr) :
  (is_Some (type_of_new host AudioContainer args) <-> exists s, args = [EStr s]) /\
  (is_Some (type_of_new host KeyboardManager args) <-> args = []).
Proof.
  split.
  - unfold type_of_new. split.
    + intros [t Ht]. destruct args as [|a [|b args]]; simpl in Ht.
      * discriminate Ht.
      * destruct a; try discriminate Ht. eauto.
      * rewrite andb_false_r in Ht. discriminate Ht.
    + intros [s ->]. simpl. eauto.
  - unfold type_of_new. split.
    + intros [t Ht]. destruct args; [reflexivity | discriminate Ht].
    + intros ->. simpl. eauto.
Qed.

(** X22: [KeyboardManager] declares [_downKeys], [_handled] and [_moveKeys]
    as protected fields of type [Set<string>] and [isDown(code: string):
    boolean]; a call of [isDown] from outside type-checks exactly with one
    string argument, and its type is then [boolean]. *)
Theorem isDown_call (args : list expr) :
  Forall (fun k => property_type KeyboardManager k = Some (TRef "Set" [TString]) /\
                   option_map visibility (find_member k (members KeyboardManager))
                   = Some Protected)
    ["_downKeys"; "_handled"; "_moveKeys"] /\
  method_signature KeyboardManager "isDown"
    = Some ([required "code" TString], TBoolean) /\
  (Access.type_of_call host (members KeyboardManager) "isDown" args = Some TBoolean
     <-> exists code, args = [EStr code]) /\
  (forall r, Access.type_of_call host (members KeyboardManager) "isDown" args = Some r ->
     r = TBoolean).
Proof.
  split; [repeat constructor|]. split; [reflexivity|].
  unfold Access.type_of_call. cbn [find_member members KeyboardManager].
  split; [split|].
  - intros Hcall. destruct args as [|a [|b args]]; simpl in Hcall.
    + discriminate Hcall.
    + destruct a; try discriminate Hcall. eauto.
    + rewrite andb_false_r in Hcall. discriminate Hcall.
  - intros [code ->]. reflexivity.
  - intros r Hcall. simpl in Hcall.
    destruct args as [|a [|b args]]; try discriminate Hcall.
    + destruct a; try discriminate Hcall. now injection Hcall as <-.
    + rewrite andb_false_r in Hcall. discriminate Hcall.
Qed.

(** X23: the declaration of [AudioContainer] documents a default for eight
    members and no other: [false] for [isBuffer], [loaded], [failed],
    [playing] and [_loop], [undefined] for [sourceNode] and [gainNode], and
    [10 * 60] = 600 for the static [MAX_BUFFER_DURATION]; [src] has none, and
    has the type of the constructor's only parameter. *)
Theorem AudioContainer_documented_defaults :
  map name (List.filter (fun m => match defaultValue m with Some _ => true | None => false end)
              (members AudioContainer))
    = [ "sourceNode"; "gainNode"; "isBuffer"; "loaded"; "failed"; "playing";
        "_loop"; "MAX_BUFFER_DURATION" ] /\
  Forall (fun k => default_of host AudioContainer k = Some (VBool false))
    ["isBuffer"; "loaded"; "failed"; "playing"; "_loop"] /\
  Forall (fun k => default_of host AudioContainer k = Some VUndefined)
    ["sourceNode"; "gainNode"] /\
  default_of host AudioContainer "MAX_BUFFER_DURATION" = Some (VNum 600) /\
  default_of host AudioContainer "src" = None /\
  ctor AudioContainer = [required "src" TString] /\
  property_type AudioContainer "src" = Some TString.
Proof.
  split; [reflexivity|].
  split; [repeat constructor|]. split; [repeat constructor|].
  repeat split.
Qed.

End ConstructFacts.

(** ** More on the type tests of [WallData] *)
Section WallMore.
Import Wall.
Context (host : Host).

Ltac check_wall_fields :=
  unfold type_of_new; cbn [ctor WallData arguments_ok required];
  rewrite assignable_object;
  unfold WallData_fields, optional, required;
  cbn [forallb property_ok assoc fst snd String.eqb Ascii.eqb Bool.eqb c_10_20_30_40];
  rewrite ?assignable_nullable_enum, ?assignable_enum_type.

(** X13: every field of [WallData] other than [c] accepts [null] and
    accepts [undefined], next to a well-formed [c]. *)
Theorem optional_fields_accept_null_and_undefined (k : string)
    (Hk : k ∈ keys (WallData_fields host)) (Hc : k <> "c") :
  type_of_new host (WallData host) [EObject [c_10_20_30_40; (k, ENull)]]
    = Some WallData_type /\
  type_of_new host (WallData host) [EObject [c_10_20_30_40; (k, EUndefined)]]
    = Some WallData_type.
Proof.
  cbn [keys map fst WallData_fields optional required] in Hk.
  rewrite !elem_of_cons, elem_of_nil in Hk.
  destruct Hk as [->|[->|[->|[->|[->|[->|[->|[->|[->|[]]]]]]]]]];
    try contradiction; split; check_wall_fields; reflexivity.
Qed.

(** X14: a number given for an enumerated field of [WallData] type-checks
    exactly when it is a value of the field's constant table. *)
Theorem enumerated_field_accepts_exactly_its_table
    (k : string) (tbl : list (string * Z)) (v : Z)
    (Hk : enumeration_of host k = Some tbl) :
  type_of_new host (WallData host) [EObject [c_10_20_30_40; (k, ENum v)]]
    = if in_range tbl v then Some WallData_type else None.
Proof.
  destruct (in_range tbl v) eqn:Hv.
  - unfold enumeration_of in Hk.
    repeat match type of Hk with
    | (if String.eqb ?a ?b then _ else _) = _ =>
        destruct (String.eqb_spec a b) as [->|?]
    end; try discriminate; injection Hk as <-.
    all: check_wall_fields; cbn [literal_number]; rewrite Hv; reflexivity.
  - now apply enumerated_field_rejects with tbl.
Qed.

(** X15: an array of numbers given for [c] type-checks exactly when it has
    four elements. *)
Theorem c_needs_four_numbers (ns : list Z) :
  type_of_new host (WallData host) [EObject [("c", EArray (map ENum ns))]]
    = if decide (length ns = 4%nat) then Some WallData_type else None.
Proof.
  destruct (decide (length ns = 4%nat)) as [Hlen|Hlen].
  - destruct ns as [|x0 [|y0 [|x1 [|y1 [|? ?]]]]]; try discriminate Hlen.
    reflexivity.
  - apply c_arity. now rewrite length_map.
Qed.

End WallMore.

Lemma optional_fields_accept_null_and_undefined_witness :
  "flags" ∈ keys (Wall.WallData_fields Wall.sample_host) /\ "flags" <> "c" /\
  type_of_new Wall.sample_host (Wall.WallData Wall.sample_host)
    [EObject [Wall.c_10_20_30_40; ("flags", ENull)]] = Some Wall.WallData_type.
Proof.
  split; [compute_done|]. split; [discriminate|].
  apply (optional_fields_accept_null_and_undefined Wall.sample_host "flags");
    [compute_done | discriminate].
Defined.

Lemma enumerated_field_accepts_exactly_its_table_witness :
  Wall.enumeration_of Wall.sample_host "door" = Some (WALL_DOOR_TYPES Wall.sample_host) /\
  type_of_new Wall.sample_host (Wall.WallData Wall.sample_host)
    [EObject [Wall.c_10_20_30_40; ("door", ENum 2)]] = Some Wall.WallData_type /\
  type_of_new Wall.sample_host (Wall.WallData Wall.sample_host)
    [EObject [Wall.c_10_20_30_40; ("door", ENum 3)]] = None.
Proof.
  split; [reflexivity|]. split.
  - apply (enumerated_field_accepts_exactly_its_table Wall.sample_host "door"
             (WALL_DOOR_TYPES Wall.sample_host) 2 eq_refl).
  - apply (enumerated_field_accepts_exactly_its_table Wall.sample_host "door"
             (WALL_DOOR_TYPES Wall.sample_host) 3 eq_refl).
Defined.

Lemma wallData_tests_hold_witness :
  Wall.constants_declared Wall.sample_host = true /\
  Wall.out_of_range Wall.sample_host 9999 = true /\
  Forall (holds Wall.sample_host) (Wall.wallData_tests Wall.sample_host).
Proof.
  split; [reflexivity|]. split; [reflexivity|].
  apply (wallData_tests_hold Wall.sample_host); reflexivity.
Defined.

(** ** Calls to the methods of [SquareGrid] *)
Section CallFacts.
Import Grid Access.
Context (host : Host).

(** X17: [SquareGrid.getSnappedPosition] takes two numbers and an optional
    interval: with numbers it type-checks exactly for two or three of them,
    the interval may be [null] or [undefined] but not a string, and the
    protected [_getNearestVertex] cannot be called from outside. *)
Theorem getSnappedPosition_interval (ns : list Z) :
  (type_of_call host SquareGrid "getSnappedPosition" (map ENum ns) = Some snapped
     <-> length ns = 2%nat \/ length ns = 3%nat) /\
  (forall x y : Z,
     type_of_call host SquareGrid "getSnappedPosition" [ENum x; ENum y; ENull]
       = Some snapped /\
     type_of_call host SquareGrid "getSnappedPosition" [ENum x; ENum y; EUndefined]
       = Some snapped /\
     type_of_call host SquareGrid "getSnappedPosition" [ENum x; ENum y; EStr "1"]
       = None) /\
  (forall args, type_of_call host SquareGrid "_getNearestVertex" args = None).
Proof.
  split; [|split].
  - split.
    + intros Hcall.
      destruct ns as [|x [|y [|i [|? ?]]]]; try discriminate Hcall; auto.
    + intros [Hlen|Hlen];
        destruct ns as [|x [|y [|i [|? ?]]]]; try discriminate Hlen; reflexivity.
  - intros x y. repeat split.
  - intros args. reflexivity.
Qed.

End CallFacts.

(** ** Documented defaults of [CONFIG] *)
Section ConfigDefaults.
Context (host : Host).

Lemma find_none_absent {A} (f : A -> string) (l : list A) (c : string) :
  List.find (fun x => String.eqb (f x) c) l = None -> c ∉ map f l.
Proof.
  induction l as [|x l IH]; simpl; [intros _; apply not_elem_of_nil|].
  destruct (String.eqb_spec (f x) c) as [|Hne]; [discriminate|].
  intros Hnone. apply not_elem_of_cons. split; [congruence | now apply IH].
Qed.

(** X19: [CONFIG.Canvas.layers] registers thirteen layers under distinct
    keys and with distinct classes, each documented default being the class
    its type constructs, and the [layerClass] of every document with a
    canvas representation constructs one of the registered layers; looking a
    class up gives the key it is registered under. *)
Theorem canvas_layers_registered :
  NoDup (keys CONFIG.layers) /\
  NoDup (map (fun l => fst (snd l)) CONFIG.layers) /\
  Forall (fun l => snd (snd l) = fst (snd l)) CONFIG.layers /\
  Forall (fun d => is_Some (CONFIG.layer_key (fst (CONFIG.layerClass (snd d)))))
    CONFIG.canvas_documents /\
  forall c : string,
    match CONFIG.layer_key c with
    | Some k => option_map fst (assoc k CONFIG.layers) = Some c
    | None => c ∉ map (fun l => fst (snd l)) CONFIG.layers
    end.
Proof.
  split; [compute_done|]. split; [compute_done|]. split; [compute_done|].
  split; [repeat constructor; eexists; reflexivity|].
  intros c. unfold CONFIG.layer_key.
  destruct (List.find _ CONFIG.layers) as [[k [t d]]|] eqn:Hfind; simpl.
  - apply find_some in Hfind as [Hin Hc]. simpl in Hc. apply String.eqb_eq in Hc. subst t.
    assert (Hall : Forall (fun l => option_map fst (assoc (fst l) CONFIG.layers)
                                    = Some (fst (snd l))) CONFIG.layers)
      by (repeat constructor).
    rewrite List.Forall_forall in Hall. exact (Hall _ Hin).
  - exact (find_none_absent (fun l => fst (snd l)) CONFIG.layers c Hfind).
Qed.

(** X20: the documented [defaultFontFamily] is one of the documented
    [fontFamilies], which are pairwise distinct and fit [string[]], and it is
    the font family of the documented [canvasTextStyle]. *)
Theorem default_font_is_suggested :
  assignable host CONFIG.fontFamilies_type (EArray (map EStr CONFIG.fontFamilies)) = true /\
  NoDup CONFIG.fontFamilies /\
  CONFIG.defaultFontFamily ∈ CONFIG.fontFamilies /\
  CONFIG.canvasTextStyle_fontFamily = CONFIG.defaultFontFamily.
Proof.
  split; [reflexivity|]. split; [compute_done|]. split; [compute_done | reflexivity].
Qed.

(** X21: the documented [statusEffects] fit their declared type and have
    pairwise distinct ids, labels and icons, so that an id selects exactly
    one effect; the documented [Combat.defeatedStatusId] is the id of one of
    them, whose icon is the documented [controlIcons.defeated]. *)
Theorem defeated_status_effect :
  assignable host CONFIG.statusEffects_type CONFIG.statusEffects_default = true /\
  NoDup (keys CONFIG.statusEffects) /\
  NoDup (map (fun e => fst (snd e)) CONFIG.statusEffects) /\
  NoDup (map (fun e => snd (snd e)) CONFIG.statusEffects) /\
  (exists label icon,
     assoc CONFIG.defeatedStatusId CONFIG.statusEffects = Some (label, icon) /\
     assoc "defeated" CONFIG.controlIcons = Some icon) /\
  forall id e, assoc id CONFIG.statusEffects = Some e ->
    filter (fun x => fst x = id) CONFIG.statusEffects = [(id, e)].
Proof.
  split; [reflexivity|]. split; [compute_done|]. split; [compute_done|].
  split; [compute_done|]. split; [do 2 eexists; split; reflexivity|].
  intros id e He. apply assoc_In in He.
  assert (Hall : Forall (fun x => filter (fun y => fst y = fst x) CONFIG.statusEffects = [x])
                   CONFIG.statusEffects) by compute_done.
  rewrite List.Forall_forall in Hall. exact (Hall _ He).
Qed.

End ConfigDefaults.
